(** * bike_class.py: the Toronto Bike Share loader, embedded in Rocq

    The class [BikeShareDataLoader] of [bike_class.py] reads a CKAN
    catalog, keeps the resources of one year, downloads and parses them
    (CSV, XLSX, or a ZIP archive of those) and concatenates the frames.

    The embedding follows the Python text method by method.  What the
    code takes from libraries ([requests], [zipfile], [chardet],
    [pandas]) is a parameter of the section [Loader]; the control flow,
    the filters on URLs and archive entry names, the handling of
    exceptions and the choice of the text encoding are definitions.

    Python [str] values are modelled by [string]: a character is a code
    point below 256 (Latin-1). *)

From Stdlib Require Import List String Ascii ZArith Lia Bool Arith.
From Stdlib Require Import DecimalString.
From Stdlib.Strings Require Byte.
Import ListNotations.
Open Scope string_scope.
Open Scope list_scope.

Set Implicit Arguments.
Set Warnings "-register-all".

(** ** Python strings *)

Module PyStr.

(** [c.lower()] for one code point below 256: the letters A-Z and the
    Latin-1 capitals U+00C0..U+00DE, the multiplication sign U+00D7
    excepted, move 32 places up. *)
Definition lower_char (c : ascii) : ascii :=
  let n := nat_of_ascii c in
  if (((65 <=? n) && (n <=? 90))
      || ((192 <=? n) && (n <=? 222) && negb (n =? 215)))%nat
  then ascii_of_nat (n + 32)
  else c.

(** [s.lower()] *)
Fixpoint lower (s : string) : string :=
  match s with
  | EmptyString => EmptyString
  | String c s' => String (lower_char c) (lower s')
  end.

(** [s.startswith(p)] *)
Fixpoint startswith (p s : string) : bool :=
  match p, s with
  | EmptyString, _ => true
  | String _ _, EmptyString => false
  | String a p', String b s' => Ascii.eqb a b && startswith p' s'
  end.

(** [sub in s] *)
Fixpoint contains (sub s : string) : bool :=
  startswith sub s
  || match s with
     | EmptyString => false
     | String _ s' => contains sub s'
     end.

(** [s.endswith(suf)]: the last [len(suf)] characters of [s] are [suf]. *)
Definition endswith (suf s : string) : bool :=
  (String.length suf <=? String.length s)%nat
  && String.eqb
       (substring (String.length s - String.length suf) (String.length suf) s)
       suf.

(** [s.endswith((a, b, ...))] with a tuple of suffixes. *)
Definition endswith_any (sufs : list string) (s : string) : bool :=
  existsb (fun suf => endswith suf s) sufs.

(** [str(n)] for a Python [int]. *)
Definition str_of_int (n : Z) : string :=
  NilZero.string_of_int (Z.to_int n).

End PyStr.

(** ** Values read from JSON

    [response.json()] gives Python values: [None], [bool], [int],
    [float], [str], [list] and [dict].  A [float] keeps its literal; a
    [dict] keeps its items in order, and a key is looked up from the
    front (the keys of a parsed object are distinct). *)

Inductive json : Type :=
| JNull
| JBool (b : bool)
| JInt (n : Z)
| JFloat (literal : string)
| JStr (s : string)
| JArr (items : list json)
| JObj (fields : list (string * json)).

Definition type_name (v : json) : string :=
  match v with
  | JNull => "NoneType"
  | JBool _ => "bool"
  | JInt _ => "int"
  | JFloat _ => "float"
  | JStr _ => "str"
  | JArr _ => "list"
  | JObj _ => "dict"
  end.

Fixpoint assoc (key : string) (fields : list (string * json)) : option json :=
  match fields with
  | [] => None
  | (k, v) :: rest => if String.eqb k key then Some v else assoc key rest
  end.

(** ** Exceptions *)

(** [LibError] is an exception raised inside [requests], [zipfile] or
    [pandas]; it carries the text of [str(e)].  All of these are
    subclasses of [Exception]. *)
Inductive exn : Type :=
| KeyError (key : string)
| TypeError (msg : string)
| AttributeError (ty attr : string)
| AssertionError
| JSONDecodeError
| UnboundLocalError (var : string)
| ValueError (msg : string)
| LibError (msg : string).

(** [str(e)] *)
Definition exn_str (e : exn) : string :=
  match e with
  | KeyError key => ("'" ++ key ++ "'")%string
  | TypeError msg => msg
  | AttributeError ty attr =>
      ("'" ++ ty ++ "' object has no attribute '" ++ attr ++ "'")%string
  | AssertionError => ""
  | JSONDecodeError => "Expecting value"
  | UnboundLocalError var =>
      ("cannot access local variable '" ++ var
         ++ "' where it is not associated with a value")%string
  | ValueError msg => msg
  | LibError msg => msg
  end.

Inductive outcome (A : Type) : Type :=
| Returned (a : A)
| Raised (e : exn).
Arguments Returned {A} a.
Arguments Raised {A} e.

Definition obind {A B} (o : outcome A) (k : A -> outcome B) : outcome B :=
  match o with
  | Returned a => k a
  | Raised e => Raised e
  end.

Notation "x <-? o ;; k" := (obind o (fun x => k))
  (at level 61, o at next level, right associativity).

Definition omap {A B} (f : A -> B) (o : outcome A) : outcome B :=
  match o with
  | Returned a => Returned (f a)
  | Raised e => Raised e
  end.

Fixpoint traverse {A B} (f : A -> outcome B) (l : list A) : outcome (list B) :=
  match l with
  | [] => Returned []
  | x :: rest =>
      y <-? f x ;;
      ys <-? traverse f rest ;;
      Returned (y :: ys)
  end.

(** [v[key]] with a [str] key. *)
Definition getitem (v : json) (key : string) : outcome json :=
  match v with
  | JObj fields =>
      match assoc key fields with
      | Some x => Returned x
      | None => Raised (KeyError key)
      end
  | JArr _ => Raised (TypeError "list indices must be integers or slices, not str")
  | JStr _ => Raised (TypeError "string indices must be integers, not 'str'")
  | _ => Raised (TypeError ("'" ++ type_name v ++ "' object is not subscriptable"))
  end.

(** [v.get(key, default)] *)
Definition dict_get (v : json) (key : string) (default : json) : outcome json :=
  match v with
  | JObj fields =>
      match assoc key fields with
      | Some x => Returned x
      | None => Returned default
      end
  | _ => Raised (AttributeError (type_name v) "get")
  end.

(** [v.lower()] *)
Definition py_lower (v : json) : outcome string :=
  match v with
  | JStr s => Returned (PyStr.lower s)
  | _ => Raised (AttributeError (type_name v) "lower")
  end.

(** The values a [for value in v] loop visits: the items of a list,
    the keys of a dict, the characters of a str. *)
Definition iter_values (v : json) : outcome (list json) :=
  match v with
  | JArr items => Returned items
  | JObj fields => Returned (map (fun kv => JStr (fst kv)) fields)
  | JStr s => Returned (map (fun c => JStr (String c EmptyString)) (list_ascii_of_string s))
  | _ => Raised (TypeError ("'" ++ type_name v ++ "' object is not iterable"))
  end.

(** [x is True] *)
Definition is_True (v : json) : bool :=
  match v with
  | JBool true => true
  | _ => false
  end.

(** ** Frames

    A [pandas.DataFrame], as far as the loader looks at it: the column
    names and the rows in order, each with its index label.  A missing
    value (NaN) is [None]. *)

Definition cell : Type := option string.

Record DataFrame : Type := mkFrame {
  columns : list string;
  rows : list (Z * list cell)
}.

Definition nrows (df : DataFrame) : nat := List.length (rows df).
Definition ncols (df : DataFrame) : nat := List.length (columns df).
Definition index (df : DataFrame) : list Z := map fst (rows df).

(** [pd.DataFrame()] *)
Definition empty_frame : DataFrame := mkFrame [] [].

(** The value of a row under the column [c] of a frame whose columns
    are [cols]; NaN when the frame has no such column. *)
Fixpoint get_cell (cols : list string) (cells : list cell) (c : string) : cell :=
  match cols, cells with
  | c' :: cols', v :: cells' =>
      if String.eqb c' c then v else get_cell cols' cells' c
  | _, _ => None
  end.

(** The names of [l] in the order of their first occurrence. *)
Definition first_occurrences (l : list string) : list string :=
  rev (nodup string_dec (rev l)).

Definition relabel (vals : list (list cell)) : list (Z * list cell) :=
  combine (map Z.of_nat (seq 0 (List.length vals))) vals.

(** The rows of [df], without labels, as [pd.concat] stores them under
    the columns [cols] of its result.  pandas converts every value to
    the type it gives the column in the result (an int64 column becomes
    float64 when one of the frames has no such column, so 600 is stored
    as 600.0); [promote frames c v] is the value it stores for [v] under
    the column [c] when it concatenates [frames].  A frame without the
    column gives NaN, converted likewise. *)
Definition converted_at (promote : list DataFrame -> string -> cell -> cell)
    (frames : list DataFrame) (cols : list string) (df : DataFrame)
  : list (list cell) :=
  map (fun r => map (fun c => promote frames c (get_cell (columns df) (snd r) c))
                    cols)
      (rows df).

(** [pd.concat(frames, ignore_index=True)]: the columns are the union of
    the frames' columns (outer join, not sorted), the rows are stacked
    in the order of the list, each value converted to the type of its
    column in the result, and the index is replaced by 0, 1, ....  An
    empty list is refused. *)
Definition pd_concat (promote : list DataFrame -> string -> cell -> cell)
    (frames : list DataFrame) : outcome DataFrame :=
  match frames with
  | [] => Raised (ValueError "No objects to concatenate")
  | _ =>
      let cols := first_occurrences (flat_map columns frames) in
      Returned (mkFrame cols
                  (relabel (flat_map (converted_at promote frames cols) frames)))
  end.

(** The number of rows in the frames before the [i]-th one. *)
Definition offset (frames : list DataFrame) (i : nat) : nat :=
  list_sum (map nrows (firstn i frames)).

(** ** The world: requests sent and lines printed *)

Definition bytes : Type := list Byte.byte.

Record world : Type := mkWorld {
  requests : list string;   (* URLs passed to [requests.get], oldest first *)
  stdout : list string      (* lines written by [print], oldest first *)
}.

Definition M (A : Type) : Type := world -> outcome A * world.

Definition ret {A} (a : A) : M A := fun w => (Returned a, w).

Definition raise {A} (e : exn) : M A := fun w => (Raised e, w).

Definition bind {A B} (m : M A) (k : A -> M B) : M B :=
  fun w =>
    match m w with
    | (Returned a, w') => k a w'
    | (Raised e, w') => (Raised e, w')
    end.

Notation "x <- m ;; k" := (bind m (fun x => k))
  (at level 61, m at next level, right associativity).
Notation "m ;;; k" := (bind m (fun _ => k))
  (at level 61, right associativity).

Definition lift {A} (o : outcome A) : M A := fun w => (o, w).

Definition run_map {A B} (f : A -> B) (r : outcome A * world)
  : outcome B * world :=
  (omap f (fst r), snd r).

(** [try: m  except Exception as e: h e] *)
Definition try_except {A} (m : M A) (h : exn -> M A) : M A :=
  fun w =>
    match m w with
    | (Returned a, w') => (Returned a, w')
    | (Raised e, w') => h e w'
    end.

(** [print(line)] *)
Definition print (line : string) : M unit :=
  fun w => (Returned tt, mkWorld (requests w) (stdout w ++ [line])).

(** [assert b] *)
Definition assert_ (b : bool) : M unit :=
  if b then ret tt else raise AssertionError.

(** Where a collected frame came from: the resource at [url] itself, or
    the entry [entry] of the archive at [url].  The labels are not in the
    Python lists; [map snd] gives the list the code holds. *)
Inductive origin : Type :=
| FromUrl (url : string)
| FromEntry (url entry : string).

(** What [chardet.detect] says about the key ['encoding'] of its
    result: no such key, the key with [None], or the key with a name. *)
Inductive detection : Type :=
| NoEncodingKey
| EncodingNone
| Encoding (name : string).

(** An opened [zipfile.ZipFile]: the entries in the order of the central
    directory. *)
Definition archive : Type := list (string * bytes).

(** [z.namelist()] *)
Definition namelist (z : archive) : list string := map fst z.

(** [z.open(name)], read to the end: when a name occurs twice the last
    entry is the one opened. *)
Definition zopen (z : archive) (name : string) : outcome bytes :=
  match find (fun e => String.eqb (fst e) name) (rev z) with
  | Some e => Returned (snd e)
  | None => Raised (KeyError ("There is no item named " ++ name ++ " in the archive"))
  end.

(** ** The loader *)

Section Loader.

(** [requests.get(url, timeout=15)], asked after the requests [sent]
    were made: the body of the response ([r.content]), or the message of
    the exception it raises (no connection, timeout, ...). *)
Variable net : list string -> string -> string + bytes.

(** [response.json()] on a body; [None] when the body is not JSON. *)
Variable response_json : bytes -> option json.

(** [zipfile.ZipFile(io.BytesIO(content))] with the entries read, or the
    message of the exception ([BadZipFile], ...). *)
Variable unzip : bytes -> string + archive.

(** [chardet.detect(sample)] *)
Variable detect : bytes -> detection.

(** The CSV reader of pandas on a file's content, decoding with the
    named codec; the frame, or the message of the exception. *)
Variable read_csv : bytes -> string -> string + DataFrame.

(** [pd.read_excel(f, engine="openpyxl")] *)
Variable read_excel : bytes -> string + DataFrame.

(** The conversion of values inside [pd.concat], see [converted_at]. *)
Variable promote : list DataFrame -> string -> cell -> cell.

Definition of_lib {A} (r : string + A) : outcome A :=
  match r with
  | inl msg => Raised (LibError msg)
  | inr a => Returned a
  end.

(** The codec pandas decodes with for [encoding=encoding]: UTF-8 when
    [encoding] is [None]. *)
Definition codec_of (encoding : option string) : string :=
  match encoding with
  | Some name => name
  | None => "utf-8"
  end.

(** [pd.read_csv(f, encoding=encoding)] *)
Definition pd_read_csv (content : bytes) (encoding : option string)
  : outcome DataFrame :=
  of_lib (read_csv content (codec_of encoding)).

Definition pd_read_excel (content : bytes) : outcome DataFrame :=
  of_lib (read_excel content).

(** [self.get_response(url)] *)
Definition get_response (url : string) : M bytes :=
  fun w =>
    (of_lib (net (requests w) url),
     mkWorld (requests w ++ [url]) (stdout w)).

(** [self.get_metadata()]; the [assert] is run (Python without [-O]). *)
Definition get_metadata (package_url : string) : M json :=
  response <- get_response package_url ;;
  data <- lift (match response_json response with
                | Some v => Returned v
                | None => Raised JSONDecodeError
                end) ;;
  success <- lift (dict_get data "success" (JBool false)) ;;
  assert_ (is_True success) ;;;
  result <- lift (getitem data "result") ;;
  lift (getitem result "resources").

(** The response to the catalog request that [get_metadata] accepts:
    a JSON object with [true] under "success" and, under "result", an
    object with the key "resources". *)
Definition catalog_response (w : world) (url : string) (res : json) : Prop :=
  exists body fields rfields,
    net (requests w) url = inr body
    /\ response_json body = Some (JObj fields)
    /\ assoc "success" fields = Some (JBool true)
    /\ assoc "result" fields = Some (JObj rfields)
    /\ assoc "resources" rfields = Some res.

(** The object after [__init__]. *)
Record loader : Type := mkLoader {
  package_url : string;
  resources : json
}.

Definition init (url : string) : M loader :=
  res <- get_metadata url ;;
  ret (mkLoader url res).

(** Lines 45-49 and 77-80, the same text twice: the encoding handed to
    [pd.read_csv] for a sample of the content.
    [[
      detected = chardet.detect(sample)
      encoding = detected.get('encoding', 'utf-8')
      if encoding and encoding.lower() == 'ascii':
          encoding = 'cp1252'
    ]] *)
Definition choose_encoding (detected : detection) : option string :=
  let encoding :=
    match detected with
    | NoEncodingKey => Some "utf-8"
    | EncodingNone => None
    | Encoding name => Some name
    end in
  match encoding with
  | Some name =>
      if negb (String.eqb name "") && String.eqb (PyStr.lower name) "ascii"
      then Some "cp1252"
      else Some name
  | None => None
  end.

(** Reading a CSV: sample the first 2000 bytes, choose the encoding,
    parse the whole content. *)
Definition parse_csv (content : bytes) : outcome DataFrame :=
  let sample := firstn 2000 content in
  pd_read_csv content (choose_encoding (detect sample)).

(** The test of line 40 on an entry name. *)
Definition eligible (year_str filename : string) : bool :=
  PyStr.endswith_any [".csv"; ".xlsx"] filename
  && PyStr.contains year_str filename.

(** Lines 41-53: open the entry and read it by its suffix.  The last
    branch stands for a name that ends with neither suffix, where [df]
    has not been assigned. *)
Definition read_entry (z : archive) (filename : string) : outcome DataFrame :=
  f <-? zopen z filename ;;
  if PyStr.endswith ".csv" filename then parse_csv f
  else if PyStr.endswith ".xlsx" filename then pd_read_excel f
  else Raised (UnboundLocalError "df").

(** The loop of [extract_valid_dataframes_from_zip] over the names that
    are left; [dfs] is the list built so far, each frame with the name
    of its entry. *)
Fixpoint extract_loop (z : archive) (year_str : string)
    (names : list string) (dfs : list (string * DataFrame))
  : outcome (list (string * DataFrame)) :=
  match names with
  | [] => Returned dfs
  | filename :: rest =>
      if eligible year_str filename then
        df <-? read_entry z filename ;;
        extract_loop z year_str rest (dfs ++ [(filename, df)])
      else extract_loop z year_str rest dfs
  end.

Definition extract_valid_dataframes_from_zip (zip_content : bytes) (year : Z)
  : outcome (list (string * DataFrame)) :=
  let year_str := PyStr.str_of_int year in
  z <-? of_lib (unzip zip_content) ;;
  extract_loop z year_str (namelist z) [].

(** The test of line 63: [true] when the resource is skipped. *)
Definition skipped (year_str url_lower : string) : bool :=
  negb (PyStr.contains year_str url_lower)
  || PyStr.contains "readme" url_lower
  || negb (PyStr.endswith_any [".zip"; ".xlsx"; ".csv"] url_lower).

(** The body of the [try] of [get_files], lines 68-82. *)
Definition fetch_and_parse (value : json) (url : string) (year : Z)
    (dfs : list (origin * DataFrame)) : M (list (origin * DataFrame)) :=
  r <- get_response url ;;
  format <- lift (getitem value "format") ;;
  fmt <- lift (py_lower format) ;;
  if String.eqb fmt "zip" then
    found <- lift (extract_valid_dataframes_from_zip r year) ;;
    ret (dfs ++ map (fun e => (FromEntry url (fst e), snd e)) found)
  else if String.eqb fmt "xlsx" then
    df <- lift (pd_read_excel r) ;;
    ret (dfs ++ [(FromUrl url, df)])
  else if String.eqb fmt "csv" then
    df <- lift (parse_csv r) ;;
    ret (dfs ++ [(FromUrl url, df)])
  else ret dfs.

Definition failed_line (url : string) (e : exn) : string :=
  ("Failed to process " ++ url ++ ": " ++ exn_str e)%string.

(** The [try] statement of [get_files] for one resource, lines 67-84. *)
Definition attempt (value : json) (url : string) (year : Z)
    (dfs : list (origin * DataFrame)) : M (list (origin * DataFrame)) :=
  try_except (fetch_and_parse value url year dfs)
             (fun e => print (failed_line url e) ;;; ret dfs).

(** The [for] loop of [get_files] over the values that are left.
    [value["url"].lower()] needs a [str] under the key; line 66 reads
    the same [str] again. *)
Fixpoint get_files_loop (year : Z) (values : list json)
    (dfs : list (origin * DataFrame)) : M (list (origin * DataFrame)) :=
  match values with
  | [] => ret dfs
  | value :: rest =>
      u <- lift (getitem value "url") ;;
      match u with
      | JStr url =>
          let url_lower := PyStr.lower url in
          if skipped (PyStr.str_of_int year) url_lower then
            get_files_loop year rest dfs
          else
            dfs' <- attempt value url year dfs ;;
            get_files_loop year rest dfs'
      | _ => raise (AttributeError (type_name u) "lower")
      end
  end.

(** [self.get_files(year)] *)
Definition get_files (self : loader) (year : Z) : M (list (origin * DataFrame)) :=
  values <- lift (iter_values (resources self)) ;;
  get_files_loop year values [].

Definition no_data_line (year : Z) : string :=
  ("No valid data files found for year " ++ PyStr.str_of_int year ++ ".")%string.

(** [self.create_df(year)] *)
Definition create_df (self : loader) (year : Z) : M DataFrame :=
  data <- get_files self year ;;
  match data with
  | [] => print (no_data_line year) ;;; ret empty_frame
  | _ => lift (pd_concat promote (map snd data))
  end.

End Loader.

Arguments get_files_loop net unzip detect read_csv read_excel year values dfs w : rename.

(** ** The tests, as propositions *)

(** [sub] occurs in [s]. *)
Definition is_substring (sub s : string) : Prop :=
  exists pre post, s = (pre ++ sub ++ post)%string.

(** [s] ends with [suf]. *)
Definition has_suffix (suf s : string) : Prop :=
  exists pre, s = (pre ++ suf)%string.

(** The characters [str(n)] is made of. *)
Definition year_char (c : ascii) : bool :=
  let n := nat_of_ascii c in
  (((48 <=? n) && (n <=? 57)) || (n =? 45))%nat.

Fixpoint all_chars (p : ascii -> bool) (s : string) : bool :=
  match s with
  | EmptyString => true
  | String c s' => p c && all_chars p s'
  end.

(** The three conditions of line 63 on a URL, as propositions. *)
Definition wanted (year : Z) (url : string) : Prop :=
  is_substring (PyStr.str_of_int year) (PyStr.lower url)
  /\ ~ is_substring "readme" (PyStr.lower url)
  /\ (has_suffix ".zip" (PyStr.lower url)
      \/ has_suffix ".xlsx" (PyStr.lower url)
      \/ has_suffix ".csv" (PyStr.lower url)).

(** The resource at [url] is not skipped by [get_files]. *)
Definition selected (year : Z) (url : string) : bool :=
  negb (skipped (PyStr.str_of_int year) (PyStr.lower url)).

(** [value["url"]] is the str [url]. *)
Definition has_url (value : json) (url : string) : Prop :=
  getitem value "url" = Returned (JStr url).

(** The test of line 40 on an entry name, as a proposition. *)
Definition eligible_name (year : Z) (name : string) : Prop :=
  (has_suffix ".csv" name \/ has_suffix ".xlsx" name)
  /\ is_substring (PyStr.str_of_int year) name.

(** The URL holds [str(year)] and holds "readme" in no letter case. *)
Definition url_ok (year : Z) (url : string) : Prop :=
  is_substring (PyStr.str_of_int year) url
  /\ forall word, PyStr.lower word = "readme" -> ~ is_substring word url.

(** What the code guarantees about an origin: the URL of the resource
    passed the test of line 63, and the name of an archive entry holds
    [str(year)]. *)
Definition origin_ok (year : Z) (o : origin) : Prop :=
  match o with
  | FromUrl url => url_ok year url
  | FromEntry url name =>
      url_ok year url /\ is_substring (PyStr.str_of_int year) name
  end.

(** The invariant as the specification words it: the string that
    identifies the payload (the URL, or the entry name for a frame read
    from an archive) holds the year and does not hold "readme". *)
Definition origin_as_specified (year : Z) (o : origin) : Prop :=
  match o with
  | FromUrl url =>
      is_substring (PyStr.str_of_int year) url /\ ~ is_substring "readme" url
  | FromEntry _ name =>
      is_substring (PyStr.str_of_int year) name /\ ~ is_substring "readme" name
  end.

(** When [get_metadata] fails, as the specification words it: the body
    is not JSON, or "success" is missing or false, or "result" or its
    "resources" is missing. *)
Definition metadata_error_as_specified (parsed : option json) : Prop :=
  parsed = None
  \/ exists fields,
       parsed = Some (JObj fields)
       /\ (assoc "success" fields = None
           \/ assoc "success" fields = Some (JBool false)
           \/ assoc "result" fields = None
           \/ exists rfields,
                assoc "result" fields = Some (JObj rfields)
                /\ assoc "resources" rfields = None).

(** ** A small portal

    One catalog, four archives and a handful of files, to run the
    loader on. *)

Module Portal.

Definition trips : DataFrame :=
  mkFrame ["trip_id"; "duration"]
          [(0%Z, [Some "1"; Some "600"]); (1%Z, [Some "2"; Some "45"])].

Definition stations : DataFrame :=
  mkFrame ["trip_id"; "station"] [(0%Z, [Some "3"; Some "Union"])].

(** A payload of one byte. *)
Definition b (n : nat) : bytes :=
  match Byte.of_nat n with Some x => [x] | None => [] end.

Definition resource (url format : string) : json :=
  JObj [("url", JStr url); ("format", JStr format)].

Definition trips_csv : json := resource "http://x/trips-2020.csv" "CSV".
Definition readme_csv : json := resource "http://x/README-2020.csv" "CSV".
Definition down_xlsx : json := resource "http://x/down-2020.xlsx" "XLSX".
Definition trips_zip : json := resource "http://x/trips-2020.zip" "ZIP".
Definition old_csv : json := resource "http://x/trips-2019.csv" "CSV".
Definition mixed_zip : json := resource "http://x/mixed-2020.zip" "ZIP".
Definition notes_csv : json := JObj [("url", JStr "http://x/notes-2020.csv")].
Definition garbled_csv : json := resource "http://x/garbled-2020.csv" "CSV".

Definition catalog : json :=
  JArr [trips_csv; readme_csv; down_xlsx; trips_zip; old_csv; mixed_zip;
        notes_csv; garbled_csv].

(** A catalog whose second resource has no URL. *)
Definition holed_catalog : json :=
  JArr [trips_csv; JObj [("format", JStr "csv")]; trips_zip].

Definition good_body : list (string * json) :=
  [("success", JBool true); ("result", JObj [("resources", catalog)])].

(** A body whose "success" is the number 1. *)
Definition odd_body : list (string * json) :=
  [("success", JInt 1); ("result", JObj [("resources", JArr [])])].

Definition trips_archive : archive :=
  [("readme-2020.csv", b 1); ("trips-2019.csv", b 1);
   ("stations-2020.xlsx", b 4); ("notes-2020.txt", b 9)].

(** An archive whose second entry is not a CSV that can be read. *)
Definition mixed_archive : archive :=
  [("q1-2020.csv", b 1); ("q2-2020.csv", b 9)].

Definition net (sent : list string) (url : string) : string + bytes :=
  if String.eqb url "http://x/catalog" then inr (b 7)
  else if String.eqb url "http://x/odd-catalog" then inr (b 8)
  else if String.eqb url "http://x/trips-2020.csv" then inr (b 1)
  else if String.eqb url "http://x/trips-2020.zip" then inr (b 2)
  else if String.eqb url "http://x/mixed-2020.zip" then inr (b 5)
  else if String.eqb url "http://x/notes-2020.csv" then inr (b 1)
  else if String.eqb url "http://x/garbled-2020.csv" then inr (b 9)
  else inl "HTTPConnectionPool: Read timed out.".

Definition response_json (body : bytes) : option json :=
  if list_eq_dec Byte.byte_eq_dec body (b 7) then Some (JObj good_body)
  else if list_eq_dec Byte.byte_eq_dec body (b 8) then Some (JObj odd_body)
  else None.

Definition unzip (content : bytes) : string + archive :=
  if list_eq_dec Byte.byte_eq_dec content (b 2) then inr trips_archive
  else if list_eq_dec Byte.byte_eq_dec content (b 5) then inr mixed_archive
  else inl "File is not a zip file".

Definition detect (sample : bytes) : detection :=
  if list_eq_dec Byte.byte_eq_dec sample (b 1) then Encoding "ascii"
  else EncodingNone.

Definition read_csv (content : bytes) (codec : string) : string + DataFrame :=
  if list_eq_dec Byte.byte_eq_dec content (b 1) then
    if String.eqb codec "cp1252" then inr trips else inl "unknown codec"
  else inl "Error tokenizing data".

Definition read_excel (content : bytes) : string + DataFrame :=
  if list_eq_dec Byte.byte_eq_dec content (b 4) then inr stations
  else inl "File is not a zip file".

(** A column that one of the frames lacks holds floats in the result: a
    number written in digits gets ".0"; other values are kept. *)
Definition promote (frames : list DataFrame) (c : string) (v : cell) : cell :=
  if forallb (fun f => existsb (String.eqb c) (columns f)) frames then v
  else match v with
       | Some text => if all_chars year_char text
                      then Some (text ++ ".0")%string else v
       | None => None
       end.

Definition start : world := mkWorld [] [].

Definition self : loader := mkLoader "http://x/catalog" catalog.
Definition holed : loader := mkLoader "http://x/catalog" holed_catalog.
Definition only_mixed : loader := mkLoader "http://x/catalog" (JArr [mixed_zip]).

Definition timed_out : exn := LibError "HTTPConnectionPool: Read timed out.".
Definition tokenizing : exn := LibError "Error tokenizing data".

(** What [get_files] gives for 2020 on [catalog]. *)
Definition data2020 : list (origin * DataFrame) :=
  [(FromUrl "http://x/trips-2020.csv", trips);
   (FromEntry "http://x/trips-2020.zip" "readme-2020.csv", trips);
   (FromEntry "http://x/trips-2020.zip" "stations-2020.xlsx", stations)].

Definition world2020 : world :=
  mkWorld
    ["http://x/trips-2020.csv"; "http://x/down-2020.xlsx";
     "http://x/trips-2020.zip"; "http://x/mixed-2020.zip";
     "http://x/notes-2020.csv"; "http://x/garbled-2020.csv"]
    ["Failed to process http://x/down-2020.xlsx: HTTPConnectionPool: Read timed out.";
     "Failed to process http://x/mixed-2020.zip: Error tokenizing data";
     "Failed to process http://x/notes-2020.csv: 'format'";
     "Failed to process http://x/garbled-2020.csv: Error tokenizing data"].

Definition frame2020 : DataFrame :=
  mkFrame ["trip_id"; "duration"; "station"]
          [(0%Z, [Some "1"; Some "600.0"; None]);
           (1%Z, [Some "2"; Some "45.0"; None]);
           (2%Z, [Some "1"; Some "600.0"; None]);
           (3%Z, [Some "2"; Some "45.0"; None]);
           (4%Z, [Some "3"; None; Some "Union"])].

Definition files := get_files net unzip detect read_csv read_excel.
Definition loop := get_files_loop net unzip detect read_csv read_excel.
Definition build := create_df net unzip detect read_csv read_excel promote.
Definition fetch := fetch_and_parse net unzip detect read_csv read_excel.
Definition extract :=
  extract_valid_dataframes_from_zip unzip detect read_csv read_excel.
Definition entry := read_entry detect read_csv read_excel.
Definition metadata := get_metadata net response_json.

End Portal.

(** ** More resources and catalogs for the portal *)

Module Cases.

(** A resource at a URL that is served, declared in a format the loader
    does not read. *)
Definition geojson : json := Portal.resource "http://x/trips-2020.csv" "GeoJSON".

(** A resource whose "format" is [None]. *)
Definition null_format : json :=
  JObj [("url", JStr "http://x/trips-2020.csv"); ("format", JNull)].

(** A resource whose "url" is [None]. *)
Definition null_url : json := JObj [("url", JNull); ("format", JStr "csv")].

Definition with_null_url : loader :=
  mkLoader "http://x/catalog" (JArr [Portal.trips_csv; null_url; Portal.trips_zip]).

(** A catalog that holds a bare URL where a resource is expected. *)
Definition with_bare_url : loader :=
  mkLoader "http://x/catalog"
           (JArr [Portal.trips_csv; JStr "http://x/trips-2020.zip"]).

(** "resources" is an object instead of a list. *)
Definition keyed : loader :=
  mkLoader "http://x/catalog" (JObj [("first", Portal.trips_csv)]).

Definition front : loader :=
  mkLoader "http://x/catalog"
           (JArr [Portal.trips_csv; Portal.readme_csv; Portal.down_xlsx]).

Definition back : loader :=
  mkLoader "http://x/catalog"
           (JArr [Portal.trips_zip; Portal.old_csv; Portal.mixed_zip;
                  Portal.notes_csv; Portal.garbled_csv]).

End Cases.

(** * Facts about the string tests *)

Lemma startswith_spec (p s : string) :
  PyStr.startswith p s = true <-> exists t, s = (p ++ t)%string.
Proof.
  revert s; induction p as [|a p IH]; intros s; simpl.
  - split; [intros _; now exists s | reflexivity].
  - destruct s as [|c s].
    + split; [discriminate | intros [t H]; discriminate].
    + rewrite andb_true_iff, Ascii.eqb_eq, IH. split.
      * intros [-> [t ->]]. now exists t.
      * intros [t H]. injection H as -> ->. split; [reflexivity | now exists t].
Qed.

Lemma contains_spec (sub s : string) :
  PyStr.contains sub s = true <-> is_substring sub s.
Proof.
  unfold is_substring. induction s as [|c s IH].
  - simpl. rewrite orb_false_r, startswith_spec. split.
    + intros [t H]. now exists EmptyString, t.
    + intros [[|a pre] [post H]]; [now exists post | discriminate].
  - change (PyStr.contains sub (String c s))
      with (PyStr.startswith sub (String c s) || PyStr.contains sub s).
    rewrite orb_true_iff, startswith_spec, IH. split.
    + intros [[t H] | [pre [post H]]].
      * now exists EmptyString, t.
      * exists (String c pre), post. simpl. now rewrite H.
    + intros [[|a pre] [post H]].
      * left. now exists post.
      * right. simpl in H. injection H as _ H. now exists pre, post.
Qed.

Lemma length_append (a b : string) :
  String.length (a ++ b) = String.length a + String.length b.
Proof. induction a; simpl; congruence. Qed.

Lemma substring_skip (pre suf : string) :
  substring (String.length pre) (String.length suf) (pre ++ suf) = suf.
Proof.
  induction pre as [|c pre IH]; simpl; [|exact IH].
  induction suf as [|d suf IH]; simpl; [reflexivity|].
  destruct suf; simpl in *; congruence.
Qed.

Lemma substring_split (n : nat) (s : string) :
  n <= String.length s ->
  s = (substring 0 n s ++ substring n (String.length s - n) s)%string.
Proof.
  revert n; induction s as [|c s IH]; intros n Hn; simpl in *.
  - destruct n; [reflexivity | lia].
  - destruct n as [|n]; simpl.
    + f_equal. clear. induction s as [|d s IH]; simpl; [reflexivity|].
      now rewrite <- IH.
    + f_equal. apply IH. lia.
Qed.

Lemma endswith_spec (suf s : string) :
  PyStr.endswith suf s = true <-> has_suffix suf s.
Proof.
  unfold PyStr.endswith, has_suffix.
  rewrite andb_true_iff, Nat.leb_le, String.eqb_eq. split.
  - intros [Hle Hsub].
    exists (substring 0 (String.length s - String.length suf) s).
    assert (E := @substring_split (String.length s - String.length suf) s
                   ltac:(lia)).
    replace (String.length s - (String.length s - String.length suf))
      with (String.length suf) in E by lia.
    now rewrite Hsub in E.
  - intros [pre ->]. rewrite length_append. split; [lia|].
    replace (String.length pre + String.length suf - String.length suf)
      with (String.length pre) by lia.
    apply substring_skip.
Qed.

Lemma endswith_any_spec (sufs : list string) (s : string) :
  PyStr.endswith_any sufs s = true <-> exists suf, In suf sufs /\ has_suffix suf s.
Proof.
  unfold PyStr.endswith_any. rewrite existsb_exists.
  split; intros [suf [H1 H2]]; exists suf; split; auto;
    now apply endswith_spec.
Qed.

(** ** Lowercasing and the decimal string of a year *)

Lemma lower_char_year_char (c : ascii) :
  year_char (PyStr.lower_char c) = true -> PyStr.lower_char c = c.
Proof.
  destruct c as [[] [] [] [] [] [] [] []]; vm_compute; congruence.
Qed.

Lemma uint_chars (d : Decimal.uint) :
  all_chars year_char (NilEmpty.string_of_uint d) = true.
Proof. induction d; simpl; auto. Qed.

Lemma str_of_int_chars (n : Z) :
  all_chars year_char (PyStr.str_of_int n) = true.
Proof.
  unfold PyStr.str_of_int, NilZero.string_of_int, NilZero.string_of_uint.
  destruct (Z.to_int n) as [d|d]; destruct d; simpl; auto using uint_chars.
Qed.

Lemma startswith_lower (y s : string) :
  all_chars year_char y = true ->
  PyStr.startswith y (PyStr.lower s) = true -> PyStr.startswith y s = true.
Proof.
  revert s; induction y as [|a y IH]; intros s Hy; simpl; [reflexivity|].
  simpl in Hy. apply andb_true_iff in Hy as [Ha Hy].
  destruct s as [|c s]; simpl; [discriminate|].
  rewrite !andb_true_iff, !Ascii.eqb_eq. intros [E H]. split; [|now apply IH].
  subst a. now apply lower_char_year_char.
Qed.

Lemma contains_lower (y s : string) :
  all_chars year_char y = true ->
  PyStr.contains y (PyStr.lower s) = true -> PyStr.contains y s = true.
Proof.
  intros Hy. induction s as [|c s IH].
  - simpl. rewrite !orb_false_r. now apply (@startswith_lower y EmptyString).
  - change (PyStr.lower (String c s))
      with (String (PyStr.lower_char c) (PyStr.lower s)).
    change (PyStr.contains y (String (PyStr.lower_char c) (PyStr.lower s)))
      with (PyStr.startswith y (PyStr.lower (String c s))
            || PyStr.contains y (PyStr.lower s)).
    change (PyStr.contains y (String c s))
      with (PyStr.startswith y (String c s) || PyStr.contains y s).
    rewrite !orb_true_iff. intros [H|H]; [left | right; auto].
    now apply startswith_lower.
Qed.

Lemma lower_append (a b : string) :
  PyStr.lower (a ++ b) = (PyStr.lower a ++ PyStr.lower b)%string.
Proof. induction a; simpl; congruence. Qed.

Lemma substring_lower (sub s : string) :
  is_substring sub s -> is_substring (PyStr.lower sub) (PyStr.lower s).
Proof.
  intros [pre [post ->]]. exists (PyStr.lower pre), (PyStr.lower post).
  now rewrite !lower_append.
Qed.

(** A URL that holds "readme" in any letter case is caught by the test
    on the lowered URL. *)
Lemma readme_any_case (word url : string) :
  PyStr.lower word = "readme" ->
  is_substring word url -> PyStr.contains "readme" (PyStr.lower url) = true.
Proof.
  intros E H. apply contains_spec. rewrite <- E. now apply substring_lower.
Qed.

(** * Facts about the loader *)

Lemma selected_spec (year : Z) (url : string) :
  selected year url = true <-> wanted year url.
Proof.
  unfold selected, skipped, wanted.
  rewrite negb_true_iff, !orb_false_iff, !negb_false_iff.
  rewrite contains_spec, endswith_any_spec.
  rewrite <- not_true_iff_false, contains_spec.
  split.
  - intros [[H1 H2] [suf [Hin H3]]]. repeat split; auto.
    simpl in Hin. destruct Hin as [<-|[<-|[<-|[]]]]; auto.
  - intros [H1 [H2 H3]]. repeat split; auto.
    destruct H3 as [H|[H|H]]; eexists; (split; [|exact H]); simpl; auto.
Qed.

Section LoaderFacts.

Variable net : list string -> string -> string + bytes.
Variable response_json : bytes -> option json.
Variable unzip : bytes -> string + archive.
Variable detect : bytes -> detection.
Variable read_csv : bytes -> string -> string + DataFrame.
Variable read_excel : bytes -> string + DataFrame.
Variable promote : list DataFrame -> string -> cell -> cell.

Local Abbreviation fetch := (fetch_and_parse net unzip detect read_csv read_excel).
Local Abbreviation loop := (get_files_loop net unzip detect read_csv read_excel).
Local Abbreviation files := (get_files net unzip detect read_csv read_excel).
Local Abbreviation build :=
  (create_df net unzip detect read_csv read_excel promote).
Local Abbreviation attempt := (attempt net unzip detect read_csv read_excel).
Local Abbreviation catalog_response := (catalog_response net response_json).
Local Abbreviation extract :=
  (extract_valid_dataframes_from_zip unzip detect read_csv read_excel).

(** The request is sent whatever happens next, and nothing is printed
    inside the [try] body. *)
Lemma fetch_world value url year dfs w :
  snd (fetch value url year dfs w)
  = mkWorld (requests w ++ [url]) (stdout w).
Proof.
  unfold fetch_and_parse, bind, get_response, lift, ret.
  destruct (net (requests w) url); simpl; [reflexivity|].
  destruct (getitem value "format"); simpl; [|reflexivity].
  destruct (py_lower a); simpl; [|reflexivity].
  repeat match goal with
         | |- context [if ?c then _ else _] => destruct c
         | |- context [match ?o with Returned _ => _ | Raised _ => _ end] =>
             destruct o
         end; reflexivity.
Qed.

(** The frames collected before are kept in front. *)
Lemma fetch_acc value url year dfs w :
  fst (fetch value url year dfs w)
  = omap (app dfs) (fst (fetch value url year [] w)).
Proof.
  unfold fetch_and_parse, bind, get_response, lift, ret.
  destruct (net (requests w) url); simpl; [reflexivity|].
  destruct (getitem value "format"); simpl; [|reflexivity].
  destruct (py_lower a); simpl; [|reflexivity].
  repeat match goal with
         | |- context [if ?c then _ else _] => destruct c
         | |- context [match ?o with Returned _ => _ | Raised _ => _ end] =>
             destruct o
         end; simpl; rewrite ?app_nil_r; reflexivity.
Qed.

Lemma attempt_cases value url year dfs w :
  attempt value url year dfs w
  = match fst (fetch value url year dfs w) with
    | Returned dfs' =>
        (Returned dfs', mkWorld (requests w ++ [url]) (stdout w))
    | Raised e =>
        (Returned dfs,
         mkWorld (requests w ++ [url]) (stdout w ++ [failed_line url e]))
    end.
Proof.
  unfold attempt, try_except.
  pose proof (fetch_world value url year dfs w) as Hw.
  destruct (fetch value url year dfs w) as [[d|e] w']; simpl in *; subst w';
    reflexivity.
Qed.

(** One turn of the loop, spelled out. *)
Lemma loop_cons year value rest dfs w :
  loop year (value :: rest) dfs w
  = match getitem value "url" with
    | Returned (JStr url) =>
        if selected year url then
          match attempt value url year dfs w with
          | (Returned dfs', w') => loop year rest dfs' w'
          | (Raised e, w') => (Raised e, w')
          end
        else loop year rest dfs w
    | Returned u => (Raised (AttributeError (type_name u) "lower"), w)
    | Raised e => (Raised e, w)
    end.
Proof.
  unfold selected. simpl. unfold bind at 1, lift.
  destruct (getitem value "url") as [u|e]; [|reflexivity].
  destruct u; try reflexivity.
  destruct (skipped _ _); reflexivity.
Qed.

Lemma attempt_acc value url year dfs w :
  attempt value url year dfs w
  = run_map (app dfs) (attempt value url year [] w).
Proof.
  rewrite !attempt_cases, fetch_acc.
  destruct (fst (fetch value url year [] w)); unfold run_map; simpl;
    now rewrite ?app_nil_r.
Qed.

(** The loop only ever adds frames behind the ones it was given. *)
Lemma loop_acc year values : forall dfs w,
  loop year values dfs w = run_map (app dfs) (loop year values [] w).
Proof.
  induction values as [|value rest IH]; intros dfs w.
  - unfold run_map. simpl. now rewrite app_nil_r.
  - rewrite !loop_cons.
    destruct (getitem value "url") as [u|e]; [|reflexivity].
    destruct u; try reflexivity.
    destruct (selected year s); [|apply IH].
    rewrite attempt_acc.
    destruct (attempt value s year [] w) as [[d|e] w1]; unfold run_map; simpl;
      [|reflexivity].
    rewrite (IH (dfs ++ d)), (IH d). unfold run_map. simpl. f_equal.
    destruct (fst (loop year rest [] w1)); simpl; [|reflexivity].
    now rewrite app_assoc.
Qed.

(** Running the loop over [l1 ++ l2] is running it over [l1], then over
    [l2]. *)
Lemma loop_app year l1 l2 : forall dfs w,
  loop year (l1 ++ l2) dfs w
  = (dfs' <- loop year l1 dfs ;; loop year l2 dfs') w.
Proof.
  induction l1 as [|value rest IH]; intros dfs w; [reflexivity|].
  simpl app. unfold bind. rewrite !loop_cons.
  destruct (getitem value "url") as [u|e]; [|reflexivity].
  destruct u; try reflexivity.
  destruct (selected year s); [|apply IH].
  destruct (attempt value s year dfs w) as [[d|e] w1]; [|reflexivity].
  apply IH.
Qed.

(** On a catalog whose entries all have a str under ["url"], the loop
    ends normally and has requested the selected URLs, in order. *)
Lemma loop_requests year values urls :
  Forall2 has_url values urls ->
  forall dfs w, exists data w',
    loop year values dfs w = (Returned data, w')
    /\ requests w' = requests w ++ filter (selected year) urls.
Proof.
  induction 1 as [|value url rest urls' Hu _ IH]; intros dfs w.
  - exists dfs, w. simpl. now rewrite app_nil_r.
  - rewrite loop_cons, Hu. simpl.
    destruct (selected year url); [|apply IH].
    rewrite attempt_cases.
    destruct (fst (fetch value url year dfs w)) as [d|e].
    + destruct (IH d (mkWorld (requests w ++ [url]) (stdout w)))
        as [data [w' [E R]]].
      exists data, w'. split; [exact E|]. rewrite R. simpl.
      now rewrite <- app_assoc.
    + destruct (IH dfs (mkWorld (requests w ++ [url])
                                (stdout w ++ [failed_line url e])))
        as [data [w' [E R]]].
      exists data, w'. split; [exact E|]. rewrite R. simpl.
      now rewrite <- app_assoc.
Qed.

(** C1. On a catalog that is a list of resources with a str under
    ["url"], [get_files] returns and the requests it has sent are the
    URLs, in catalog order, that pass the test of line 63; a URL passes
    exactly when, in lower case, it contains [str(year)], does not
    contain "readme" and ends with ".zip", ".xlsx" or ".csv".  Every
    other resource is skipped without a request. *)
Theorem get_files_fetches_wanted (self : loader) (year : Z)
    (values : list json) (urls : list string) (w : world) :
  resources self = JArr values ->
  Forall2 has_url values urls ->
  exists data w',
    files self year w = (Returned data, w')
    /\ requests w' = requests w ++ filter (selected year) urls
    /\ (forall url, selected year url = true <-> wanted year url)
    /\ (forall url, In url (filter (selected year) urls)
                    <-> In url urls /\ wanted year url).
Proof.
  intros Hres Hall.
  destruct (loop_requests year Hall [] w) as [data [w' [E R]]].
  exists data, w'. unfold get_files, bind, lift. rewrite Hres. simpl.
  split; [exact E|]. split; [exact R|].
  split; [intros url; apply selected_spec|].
  intros url. rewrite filter_In, selected_spec. reflexivity.
Qed.

(** ** Failures inside the [try] *)

Lemma fetch_raises_when_request_fails value url year dfs w msg :
  net (requests w) url = inl msg ->
  fst (fetch value url year dfs w) = Raised (LibError msg).
Proof.
  intros H. unfold fetch_and_parse, bind, get_response. now rewrite H.
Qed.

Lemma fetch_raises_when_csv_fails value url year dfs w content fmt e :
  net (requests w) url = inr content ->
  getitem value "format" = Returned (JStr fmt) ->
  PyStr.lower fmt = "csv" ->
  parse_csv detect read_csv content = Raised e ->
  fst (fetch value url year dfs w) = Raised e.
Proof.
  intros H1 H2 H3 H4. unfold fetch_and_parse, bind, get_response, lift.
  rewrite H1. simpl. rewrite H2. simpl. rewrite H3. simpl. now rewrite H4.
Qed.

Lemma fetch_raises_when_xlsx_fails value url year dfs w content fmt msg :
  net (requests w) url = inr content ->
  getitem value "format" = Returned (JStr fmt) ->
  PyStr.lower fmt = "xlsx" ->
  read_excel content = inl msg ->
  fst (fetch value url year dfs w) = Raised (LibError msg).
Proof.
  intros H1 H2 H3 H4. unfold fetch_and_parse, bind, get_response, lift.
  rewrite H1. simpl. rewrite H2. simpl. rewrite H3. simpl.
  unfold pd_read_excel. now rewrite H4.
Qed.

Lemma fetch_raises_when_zip_fails value url year dfs w content fmt e :
  net (requests w) url = inr content ->
  getitem value "format" = Returned (JStr fmt) ->
  PyStr.lower fmt = "zip" ->
  extract content year = Raised e ->
  fst (fetch value url year dfs w) = Raised e.
Proof.
  intros H1 H2 H3 H4. unfold fetch_and_parse, bind, get_response, lift.
  rewrite H1. simpl. rewrite H2. simpl. rewrite H3. simpl. now rewrite H4.
Qed.

(** C3. A selected resource whose request or parsing raises inside the
    [try] costs only its own frames: the line "Failed to process ..." is
    printed, the loop goes on with the resources after it, and the
    result is the frames collected before it followed by whatever the
    later resources give.  The exception [e] is any raised by lines
    68-82: the request that fails, a content that does not parse. *)
Theorem failure_is_isolated (self : loader) (year : Z)
    (pre post : list json) (value : json) (url : string)
    (before : list (origin * DataFrame)) (w w1 : world) (e : exn) :
  resources self = JArr (pre ++ value :: post) ->
  loop year pre [] w = (Returned before, w1) ->
  has_url value url ->
  selected year url = true ->
  fst (fetch value url year before w1) = Raised e ->
  files self year w
  = run_map (app before)
      (loop year post []
         (mkWorld (requests w1 ++ [url])
                  (stdout w1 ++ [failed_line url e]))).
Proof.
  intros Hres Hpre Hu Hsel Hfail.
  unfold get_files, bind at 1, lift. rewrite Hres. simpl iter_values. cbv iota.
  rewrite loop_app. unfold bind. rewrite Hpre.
  rewrite loop_cons, Hu, Hsel, attempt_cases, Hfail.
  apply loop_acc.
Qed.

(** C10. A resource without the key ["url"] stops [get_files] with an
    uncaught [KeyError] when the loop reaches it: the frames collected
    from the resources before it are lost and the resources after it are
    not looked at; [create_df] fails the same way. *)
Theorem missing_url_aborts (self : loader) (year : Z)
    (pre post : list json) (fields : list (string * json))
    (before : list (origin * DataFrame)) (w w1 : world) :
  resources self = JArr (pre ++ JObj fields :: post) ->
  loop year pre [] w = (Returned before, w1) ->
  assoc "url" fields = None ->
  files self year w = (Raised (KeyError "url"), w1)
  /\ build self year w = (Raised (KeyError "url"), w1).
Proof.
  intros Hres Hpre Hno.
  assert (E : files self year w = (Raised (KeyError "url"), w1)).
  { unfold get_files, bind at 1, lift. rewrite Hres. simpl iter_values. cbv iota.
    rewrite loop_app. unfold bind. rewrite Hpre.
    rewrite loop_cons. simpl. now rewrite Hno. }
  split; [exact E|]. unfold create_df, bind. now rewrite E.
Qed.

(** ** The frame that is returned *)

(** C8. When [get_files] has collected nothing, [create_df] prints the
    line "No valid data files found for year ..." and returns
    [pd.DataFrame()], a frame with no row and no column; it does not
    raise. *)
Theorem create_df_without_data (self : loader) (year : Z) (w w' : world) :
  files self year w = (Returned [], w') ->
  build self year w
  = (Returned empty_frame,
     mkWorld (requests w') (stdout w' ++ [no_data_line year]))
  /\ nrows empty_frame = 0 /\ ncols empty_frame = 0.
Proof.
  intros E. unfold create_df, bind. rewrite E. repeat split.
Qed.

(** No resource is selected: nothing is requested, printed or
    collected. *)
Lemma loop_without_match year values urls :
  Forall2 has_url values urls ->
  Forall (fun url => selected year url = false) urls ->
  forall dfs w, loop year values dfs w = (Returned dfs, w).
Proof.
  induction 1 as [|value url rest urls' Hu _ IH]; intros Hall dfs w;
    [reflexivity|].
  inversion Hall; subst. rewrite loop_cons, Hu.
  match goal with H : selected _ _ = false |- _ => rewrite H end.
  now apply IH.
Qed.

Lemma relabel_values (vals : list (list cell)) :
  map snd (relabel vals) = vals.
Proof.
  unfold relabel. generalize 0.
  induction vals as [|v vals IH]; intros n; simpl; [reflexivity|].
  now rewrite IH.
Qed.

Lemma relabel_index (vals : list (list cell)) :
  map fst (relabel vals) = map Z.of_nat (seq 0 (List.length vals)).
Proof.
  unfold relabel. generalize 0.
  induction vals as [|v vals IH]; intros n; simpl; [reflexivity|].
  now rewrite IH.
Qed.

Lemma relabel_length (vals : list (list cell)) :
  List.length (relabel vals) = List.length vals.
Proof. now rewrite <- (length_map snd), relabel_values. Qed.

Lemma converted_at_length (frames : list DataFrame) (cols : list string)
    (df : DataFrame) :
  List.length (converted_at promote frames cols df) = nrows df.
Proof. unfold converted_at, nrows. apply length_map. Qed.

Lemma first_occurrences_In (l : list string) (c : string) :
  In c (first_occurrences l) <-> In c l.
Proof.
  unfold first_occurrences. now rewrite <- in_rev, nodup_In, <- in_rev.
Qed.

(** A value written under a column of the union is read back under
    that column. *)
Lemma get_cell_reread (cols : list string) (g : string -> cell) (c : string) :
  In c cols -> get_cell cols (map g cols) c = g c.
Proof.
  induction cols as [|c' cols IH]; simpl; [tauto|].
  intros H. destruct (String.eqb_spec c' c) as [->|Hne]; [reflexivity|].
  destruct H as [H|H]; [congruence | now apply IH].
Qed.

Lemma combine_seq_nth (vals : list (list cell)) :
  forall s k v,
    nth_error vals k = Some v ->
    nth_error (combine (map Z.of_nat (seq s (List.length vals))) vals) k
    = Some (Z.of_nat (s + k), v).
Proof.
  induction vals as [|x vals IH]; intros s k v H; destruct k as [|k];
    cbn [nth_error combine map seq List.length] in *; try discriminate.
  - injection H as ->. now rewrite Nat.add_0_r.
  - rewrite (IH (S s) k v H). do 3 f_equal. lia.
Qed.

Lemma relabel_nth (vals : list (list cell)) (k : nat) (v : list cell) :
  nth_error vals k = Some v ->
  nth_error (relabel vals) k = Some (Z.of_nat k, v).
Proof. intros H. unfold relabel. now rewrite (combine_seq_nth vals 0 k H). Qed.

(** Where the [j]-th element of the [i]-th block lands in a list made of
    blocks. *)
Lemma nth_error_flat_map {A B} (g : A -> list B) (l : list A) :
  forall i a j b,
    nth_error l i = Some a ->
    nth_error (g a) j = Some b ->
    nth_error (flat_map g l)
              (list_sum (map (fun x => List.length (g x)) (firstn i l)) + j)
    = Some b.
Proof.
  induction l as [|x l IH]; intros i a j b Hi Hj; [now destruct i|].
  destruct i as [|i]; simpl in *.
  - injection Hi as ->. rewrite nth_error_app1; [exact Hj|].
    apply nth_error_Some. congruence.
  - rewrite nth_error_app2 by lia.
    replace (List.length (g x)
             + list_sum (map (fun x0 => List.length (g x0)) (firstn i l))
             + j - List.length (g x))
      with (list_sum (map (fun x0 => List.length (g x0)) (firstn i l)) + j)
      by lia.
    now apply IH with (a := a).
Qed.

Lemma pd_concat_rows (frames : list DataFrame) (df : DataFrame) :
  pd_concat promote frames = Returned df ->
  columns df = first_occurrences (flat_map columns frames)
  /\ index df = map Z.of_nat (seq 0 (nrows df))
  /\ nrows df = list_sum (map nrows frames)
  /\ (forall i f j r,
        nth_error frames i = Some f ->
        nth_error (rows f) j = Some r ->
        nth_error (rows df) (offset frames i + j)
        = Some (Z.of_nat (offset frames i + j),
                map (fun c => promote frames c (get_cell (columns f) (snd r) c))
                    (columns df))).
Proof.
  intros H.
  assert (E : df = mkFrame (first_occurrences (flat_map columns frames))
                 (relabel (flat_map
                    (converted_at promote frames
                       (first_occurrences (flat_map columns frames)))
                    frames))).
  { destruct frames; [discriminate|]. unfold pd_concat in H. congruence. }
  clear H. subst df. unfold index, nrows. cbn [columns rows].
  rewrite relabel_index, relabel_length.
  split; [reflexivity|]. split; [reflexivity|]. split.
  - rewrite length_flat_map. f_equal. apply map_ext. intros a.
    apply converted_at_length.
  - intros i f j r Hi Hj. apply relabel_nth.
    unfold offset.
    rewrite (map_ext nrows
               (fun x => List.length
                           (converted_at promote frames
                              (first_occurrences (flat_map columns frames)) x)))
      by (intros a; symmetry; apply converted_at_length).
    apply nth_error_flat_map with (a := f); [exact Hi|].
    unfold converted_at. now rewrite nth_error_map, Hj.
Qed.

(** What [create_df] makes of a non-empty list of collected frames. *)
Lemma create_df_of_data (self : loader) (year : Z) (w w' : world)
    (data : list (origin * DataFrame)) :
  files self year w = (Returned data, w') ->
  data <> [] ->
  exists df,
    build self year w = (Returned df, w')
    /\ pd_concat promote (map snd data) = Returned df.
Proof.
  intros E Hne. unfold create_df, bind. rewrite E.
  destruct data as [|d data]; [congruence|].
  destruct (pd_concat promote (map snd (d :: data))) as [df|e] eqn:Hc;
    [|discriminate].
  exists df. unfold lift. auto.
Qed.

(** The frames of a catalog cut in two: those of the first part, then
    those of the second part. *)
Lemma get_files_in_catalog_order (self : loader) (year : Z)
    (pre post : list json) (first later : list (origin * DataFrame))
    (w w1 w2 : world) :
  resources self = JArr (pre ++ post) ->
  loop year pre [] w = (Returned first, w1) ->
  loop year post [] w1 = (Returned later, w2) ->
  files self year w = (Returned (first ++ later), w2).
Proof.
  intros Hres Hpre Hpost.
  unfold get_files, bind at 1, lift. rewrite Hres. simpl iter_values. cbv iota.
  rewrite loop_app. unfold bind. rewrite Hpre, loop_acc, Hpost. reflexivity.
Qed.

(** C9. When at least one frame has been collected, [create_df] returns
    the concatenation of the collected frames, in the order of
    collection: for any cut of the catalog in two, the frames read from
    the first part, then those read from the second.  The result has as
    many rows as the frames have together, under an index that counts
    0, 1, 2, ....  The [j]-th row of the [i]-th collected frame is the
    row of the result at the position found by counting the rows of the
    frames before it and then [j]; it carries that position as its
    label, and under each column of the result it holds what pandas
    stores for the value the row had under that column (NaN when the
    frame had no such column), converted to the type of the column in
    the result.  Every column of a collected frame is a column of the
    result. *)
Theorem create_df_concatenates (self : loader) (year : Z)
    (pre post : list json) (first later : list (origin * DataFrame))
    (w w1 w2 : world) :
  resources self = JArr (pre ++ post) ->
  loop year pre [] w = (Returned first, w1) ->
  loop year post [] w1 = (Returned later, w2) ->
  first ++ later <> [] ->
  exists df,
    build self year w = (Returned df, w2)
    /\ nrows df
       = list_sum (map nrows (map snd first))
         + list_sum (map nrows (map snd later))
    /\ index df = map Z.of_nat (seq 0 (nrows df))
    /\ (forall i f j r,
          nth_error (map snd (first ++ later)) i = Some f ->
          nth_error (rows f) j = Some r ->
          nth_error (rows df) (offset (map snd (first ++ later)) i + j)
          = Some (Z.of_nat (offset (map snd (first ++ later)) i + j),
                  map (fun c => promote (map snd (first ++ later)) c
                                  (get_cell (columns f) (snd r) c))
                      (columns df)))
    /\ (forall f c, In f (map snd (first ++ later)) -> In c (columns f) ->
                    In c (columns df)).
Proof.
  intros Hres Hpre Hpost Hne.
  pose proof (get_files_in_catalog_order self year pre post w Hres Hpre Hpost)
    as E.
  destruct (create_df_of_data self year w E Hne) as [df [Hb Hc]].
  apply pd_concat_rows in Hc as (Hcols & Hidx & Hn & Hrows).
  exists df. split; [exact Hb|].
  split; [now rewrite Hn, !map_app, list_sum_app|].
  split; [exact Hidx|]. split; [exact Hrows|].
  intros f c Hf Hcin. rewrite Hcols, first_occurrences_In.
  apply in_flat_map. now exists f.
Qed.

(** ** Archives *)

Lemma eligible_spec (year : Z) (name : string) :
  eligible (PyStr.str_of_int year) name = true <-> eligible_name year name.
Proof.
  unfold eligible, eligible_name.
  rewrite andb_true_iff, contains_spec, endswith_any_spec.
  split; intros [H1 H2]; (split; [|exact H2]).
  - destruct H1 as [suf [Hin H]]. simpl in Hin.
    destruct Hin as [<-|[<-|[]]]; auto.
  - destruct H1 as [H|H]; eexists; (split; [|exact H]); simpl; auto.
Qed.

Local Abbreviation entry z :=
  (fun name => df <-? read_entry detect read_csv read_excel z name ;;
               Returned (name, df)).

Lemma traverse_names (z : archive) (names : list string) :
  forall l, traverse (entry z) names = Returned l ->
    map fst l = names
    /\ Forall (fun e => read_entry detect read_csv read_excel z (fst e)
                        = Returned (snd e)) l.
Proof.
  induction names as [|name rest IH]; simpl; intros l H.
  - injection H as <-. split; [reflexivity | constructor].
  - destruct (read_entry detect read_csv read_excel z name) as [df|e] eqn:E;
      simpl in H; [|discriminate].
    destruct (traverse (entry z) rest) as [l'|e]; simpl in H; [|discriminate].
    injection H as <-. destruct (IH l' eq_refl) as [H1 H2].
    split; [simpl; now rewrite H1 | constructor; auto].
Qed.

Lemma traverse_raises {A B} (f : A -> outcome B) (l : list A) x e0 :
  In x l -> f x = Raised e0 -> exists e, traverse f l = Raised e.
Proof.
  induction l as [|a l IH]; simpl; [tauto|].
  intros [->|Hin] Hx.
  - rewrite Hx. now exists e0.
  - destruct (f a); simpl; [|eauto].
    destruct (IH Hin Hx) as [e ->]. now exists e.
Qed.

(** The loop reads the eligible names in order and nothing else. *)
Lemma extract_loop_traverse (z : archive) (y : string) (names : list string) :
  forall dfs,
    extract_loop detect read_csv read_excel z y names dfs
    = omap (app dfs) (traverse (entry z) (filter (eligible y) names)).
Proof.
  induction names as [|name rest IH]; intros dfs; simpl.
  - now rewrite app_nil_r.
  - destruct (eligible y name); [|apply IH]. simpl.
    destruct (read_entry detect read_csv read_excel z name) as [df|e]; simpl;
      [|reflexivity].
    rewrite IH. destruct (traverse (entry z) (filter (eligible y) rest)); simpl;
      [|reflexivity].
    now rewrite <- app_assoc.
Qed.

(** An entry listed by the archive can be opened. *)
Lemma zopen_listed (z : archive) (name : string) :
  In name (namelist z) -> exists f, zopen z name = Returned f /\ In (name, f) z.
Proof.
  unfold namelist, zopen. intros H. apply in_map_iff in H as [[n f] [E Hin]].
  simpl in E. subst n.
  destruct (find (fun e => String.eqb (fst e) name) (rev z)) as [[n' f']|] eqn:F.
  - apply find_some in F as [Hin' E]. simpl in E.
    apply String.eqb_eq in E. subst n'. exists f'. split; [reflexivity|].
    now apply in_rev.
  - apply in_rev in Hin. apply (find_none _ _ F) in Hin. simpl in Hin.
    now rewrite String.eqb_refl in Hin.
Qed.

(** For an eligible name one of the two readers applies: [df] is always
    assigned before line 54. *)
Lemma read_entry_eligible (z : archive) (y name : string) :
  eligible y name = true ->
  read_entry detect read_csv read_excel z name
  = (f <-? zopen z name ;;
     if PyStr.endswith ".csv" name then parse_csv detect read_csv f
     else pd_read_excel read_excel f).
Proof.
  unfold eligible, read_entry, PyStr.endswith_any. simpl.
  rewrite orb_false_r. intros H. apply andb_true_iff in H as [H _].
  destruct (zopen z name); simpl; [|reflexivity].
  destruct (PyStr.endswith ".csv" name); [reflexivity|].
  simpl in H. now rewrite H.
Qed.


(** C7, as the code has it. When one eligible entry of an archive cannot
    be read, [extract_valid_dataframes_from_zip] raises and hands back no
    list: the resource gives no frame at all, not even those of the
    entries read before the failing one.  [get_files] prints the failure
    and goes on with the next resource, the frames collected so far
    untouched. *)
Theorem entry_failure_drops_archive (year : Z) (value : json)
    (url fmt : string) (content : bytes) (z : archive) (name : string)
    (e0 : exn) (rest : list json) (dfs : list (origin * DataFrame))
    (w : world) :
  has_url value url ->
  selected year url = true ->
  getitem value "format" = Returned (JStr fmt) ->
  PyStr.lower fmt = "zip" ->
  net (requests w) url = inr content ->
  unzip content = inr z ->
  In name (namelist z) ->
  eligible (PyStr.str_of_int year) name = true ->
  read_entry detect read_csv read_excel z name = Raised e0 ->
  exists e,
    extract content year = Raised e
    /\ loop year (value :: rest) dfs w
       = loop year rest dfs
           (mkWorld (requests w ++ [url]) (stdout w ++ [failed_line url e])).
Proof.
  intros Hu Hsel Hfmt Hzip Hnet Hz Hin Hel Hbad.
  assert (Hf : In name (filter (eligible (PyStr.str_of_int year)) (namelist z)))
    by (apply filter_In; auto).
  destruct (traverse_raises (entry z) _ name (e0 := e0) Hf) as [e He].
  { now rewrite Hbad. }
  assert (E : extract content year = Raised e).
  { unfold extract_valid_dataframes_from_zip. rewrite Hz. simpl.
    now rewrite extract_loop_traverse, He. }
  exists e. split; [exact E|].
  rewrite loop_cons, Hu, Hsel, attempt_cases.
  now rewrite (fetch_raises_when_zip_fails value year dfs w Hnet Hfmt Hzip E).
Qed.

(** ** Where the frames come from *)

Lemma selected_url_ok (year : Z) (url : string) :
  selected year url = true -> url_ok year url.
Proof.
  unfold selected, skipped.
  rewrite negb_true_iff, !orb_false_iff, negb_false_iff.
  intros [[H1 H2] _]. split.
  - apply contains_spec, contains_lower; auto using str_of_int_chars.
  - intros word Hw Hsub.
    now rewrite (readme_any_case Hw Hsub) in H2.
Qed.

Lemma extract_names (content : bytes) (year : Z) l :
  extract content year = Returned l ->
  Forall (fun e => is_substring (PyStr.str_of_int year) (fst e)) l.
Proof.
  unfold extract_valid_dataframes_from_zip.
  destruct (unzip content) as [msg|z]; simpl; [discriminate|].
  rewrite extract_loop_traverse.
  destruct (traverse _ _) as [l'|e] eqn:T; simpl; [|discriminate].
  intros H. injection H as <-.
  apply traverse_names in T as [Hn _].
  apply Forall_forall. intros e He.
  assert (Hin : In (fst e) (map fst l')) by now apply in_map.
  rewrite Hn in Hin. apply filter_In in Hin as [_ Hel].
  now apply eligible_spec in Hel as [_ Hy].
Qed.

Lemma fetch_origins value url year dfs w dfs' :
  url_ok year url ->
  Forall (fun d => origin_ok year (fst d)) dfs ->
  fst (fetch value url year dfs w) = Returned dfs' ->
  Forall (fun d => origin_ok year (fst d)) dfs'.
Proof.
  intros Hurl Hdfs. unfold fetch_and_parse, bind, get_response, lift, ret.
  destruct (net (requests w) url); simpl; [discriminate|].
  destruct (getitem value "format"); simpl; [|discriminate].
  destruct (py_lower a); simpl; [|discriminate].
  destruct (String.eqb a0 "zip").
  { destruct (extract b year) as [l|e] eqn:E; simpl; [|discriminate].
    intros H. injection H as <-. apply Forall_app. split; [exact Hdfs|].
    apply Forall_map. apply extract_names in E.
    eapply Forall_impl; [|exact E]. simpl. auto. }
  destruct (String.eqb a0 "xlsx").
  { destruct (pd_read_excel read_excel b); simpl; [|discriminate].
    intros H. injection H as <-. apply Forall_app. split; [exact Hdfs|].
    constructor; [exact Hurl | constructor]. }
  destruct (String.eqb a0 "csv").
  { destruct (parse_csv detect read_csv b); simpl; [|discriminate].
    intros H. injection H as <-. apply Forall_app. split; [exact Hdfs|].
    constructor; [exact Hurl | constructor]. }
  simpl. intros H. now injection H as <-.
Qed.

Lemma loop_origins year values : forall dfs w data w',
  Forall (fun d => origin_ok year (fst d)) dfs ->
  loop year values dfs w = (Returned data, w') ->
  Forall (fun d => origin_ok year (fst d)) data.
Proof.
  induction values as [|value rest IH]; intros dfs w data w' Hdfs.
  - simpl. unfold ret. intros H. now injection H as <- _.
  - rewrite loop_cons.
    destruct (getitem value "url") as [u|e]; [|discriminate].
    destruct u; try discriminate.
    destruct (selected year s) eqn:Hsel; [|now apply IH].
    rewrite attempt_cases.
    destruct (fst (fetch value s year dfs w)) as [d|e] eqn:F.
    + apply IH. eapply fetch_origins; eauto using selected_url_ok.
    + now apply IH.
Qed.

(** C2, as the code has it. Every frame [get_files] returns, and so
    every frame [create_df] concatenates, was read from a resource whose
    URL contains [str(year)] and contains "readme" in no letter case; a
    frame read from an archive comes from an entry whose name contains
    [str(year)].  (Entry names are not tested for "readme".) *)
Theorem collected_frames_origin (self : loader) (year : Z) (w w' : world)
    (data : list (origin * DataFrame)) :
  files self year w = (Returned data, w') ->
  Forall (fun d => origin_ok year (fst d)) data
  /\ (data <> [] ->
      build self year w = (pd_concat promote (map snd data), w')).
Proof.
  intros E. split.
  - unfold get_files, bind, lift in E.
    destruct (iter_values (resources self)); [|discriminate].
    eapply loop_origins; [constructor | exact E].
  - intros Hne. unfold create_df, bind. rewrite E.
    destruct data; [congruence | reflexivity].
Qed.

(** ** The encoding of a CSV *)

Lemma lower_ascii_nonempty (name : string) :
  PyStr.lower name = "ascii" -> String.eqb name "" = false.
Proof. destruct name; [discriminate | reflexivity]. Qed.

(** C5. The codec a CSV is decoded with, for the resources that are CSV
    files and for the ".csv" entries of archives alike, is chosen from
    what the detector says about the first 2000 bytes: "cp1252" when it
    names ASCII in any letter case; the name it gives, unchanged, when
    it names anything else; UTF-8 when it names nothing, whether its
    result lacks the key (the code then passes "utf-8") or holds [None]
    under it (the code then passes [None], which pandas reads as
    UTF-8). *)
Theorem csv_codec (name : string) :
  (PyStr.lower name = "ascii" ->
     choose_encoding (Encoding name) = Some "cp1252"
     /\ codec_of (choose_encoding (Encoding name)) = "cp1252")
  /\ (PyStr.lower name <> "ascii" ->
        choose_encoding (Encoding name) = Some name
        /\ codec_of (choose_encoding (Encoding name)) = name)
  /\ choose_encoding NoEncodingKey = Some "utf-8"
  /\ choose_encoding EncodingNone = None
  /\ codec_of (choose_encoding NoEncodingKey) = "utf-8"
  /\ codec_of (choose_encoding EncodingNone) = "utf-8"
  /\ (forall content,
        parse_csv detect read_csv content
        = of_lib (read_csv content
                    (codec_of (choose_encoding (detect (firstn 2000 content)))))).
Proof.
  split; [|split].
  - intros H. unfold choose_encoding.
    rewrite (lower_ascii_nonempty _ H), H. simpl. auto.
  - intros H. unfold choose_encoding.
    apply String.eqb_neq in H. rewrite H, andb_false_r. auto.
  - repeat split.
Qed.

(** ** The catalog *)

(** C6, as the code has it. [get_metadata] returns exactly when the
    request succeeds, the body is JSON, the JSON value is an object,
    its "success" is the boolean [true] (any other value, not only a
    missing one or [false], fails the assertion), its "result" is an
    object and that object has the key "resources"; what it returns is
    the value under "resources" as it is.  In every other case it
    raises. *)
Theorem get_metadata_returns_iff (url : string) (w : world) (res : json) :
  (fst (get_metadata net response_json url w) = Returned res
   <-> catalog_response w url res)
  /\ ((exists e, fst (get_metadata net response_json url w) = Raised e)
      <-> ~ exists r, catalog_response w url r).
Proof.
  assert (Main : forall r,
    fst (get_metadata net response_json url w) = Returned r
    <-> catalog_response w url r).
  { intros r. unfold catalog_response, get_metadata, bind, get_response, lift.
    destruct (net (requests w) url) as [msg|body] eqn:Hn; simpl.
    { split; [discriminate | intros (bd & f & rf & H & _); discriminate]. }
    destruct (response_json body) as [data|] eqn:Hj; simpl.
    2: { split; [discriminate|].
         intros (bd & f & rf & H1 & H2 & _). congruence. }
    destruct data as [| | | | | |fields]; simpl;
      try (split; [discriminate|];
           intros (bd & f & rf & H1 & H2 & _); congruence).
    destruct (assoc "success" fields) as [s|] eqn:Hs; simpl.
    2: { split; [discriminate|].
         intros (bd & f & rf & H1 & H2 & H3 & _). congruence. }
    destruct (is_True s) eqn:Ht; simpl.
    2: { split; [discriminate|].
         intros (bd & f & rf & H1 & H2 & H3 & _).
         assert (s = JBool true) as -> by congruence. discriminate. }
    assert (s = JBool true) as ->
      by (destruct s as [|[]| | | | |]; now try discriminate).
    destruct (assoc "result" fields) as [result|] eqn:Hr; simpl.
    2: { split; [discriminate|].
         intros (bd & f & rf & H1 & H2 & H3 & H4 & _). congruence. }
    destruct result as [| | | | | |rfields]; simpl;
      try (split; [discriminate|];
           intros (bd & f & rf & H1 & H2 & H3 & H4 & _); congruence).
    destruct (assoc "resources" rfields) as [x|] eqn:Hx; simpl.
    - split.
      + intros H. injection H as <-. now exists body, fields, rfields.
      + intros (bd & f & rf & H1 & H2 & H3 & H4 & H5). congruence.
    - split; [discriminate|].
      intros (bd & f & rf & H1 & H2 & H3 & H4 & H5). congruence. }
  split; [apply Main|]. split.
  - intros [e He] [r Hr]. apply Main in Hr. congruence.
  - intros Hno.
    destruct (fst (get_metadata net response_json url w)) as [r|e] eqn:E;
      [|now exists e].
    exfalso. apply Hno. exists r. now apply Main.
Qed.

(** ** What [get_files] does to the world *)

Local Ltac quiet :=
  solve [exists [], []; simpl; rewrite !app_nil_r; repeat split; auto].

Lemma loop_effects year values : forall dfs w,
  exists urls lines,
    requests (snd (loop year values dfs w)) = requests w ++ urls
    /\ stdout (snd (loop year values dfs w)) = stdout w ++ lines
    /\ Forall (fun url => selected year url = true) urls
    /\ Forall (fun line => exists url e, In url urls /\ line = failed_line url e)
              lines
    /\ List.length lines <= List.length urls.
Proof.
  induction values as [|value rest IH]; intros dfs w.
  - quiet.
  - rewrite loop_cons.
    destruct (getitem value "url") as [u|e]; [|quiet].
    destruct u; try quiet.
    destruct (selected year s) eqn:Hsel; [|apply IH].
    rewrite attempt_cases.
    destruct (fst (fetch value s year dfs w)) as [d|e].
    + destruct (IH d (mkWorld (requests w ++ [s]) (stdout w)))
        as (urls & lines & R & O & Hu & Hl & Hn).
      exists (s :: urls), lines. rewrite R, O. simpl.
      rewrite <- app_assoc. repeat split; auto.
      * eapply Forall_impl; [|exact Hl]. simpl.
        intros line (url & e & Hin & ->). exists url, e. auto.
    + destruct (IH dfs (mkWorld (requests w ++ [s])
                                (stdout w ++ [failed_line s e])))
        as (urls & lines & R & O & Hu & Hl & Hn).
      exists (s :: urls), (failed_line s e :: lines). rewrite R, O. simpl.
      rewrite <- !app_assoc. repeat split; auto.
      * constructor; [exists s, e; auto|].
        eapply Forall_impl; [|exact Hl]. simpl.
        intros line (url & e' & Hin & ->). exists url, e'. auto.
      * lia.
Qed.

(** X1. Whatever the catalog holds and however the call ends,
    [get_files] sends requests only to URLs that pass the test of line
    63, and prints nothing but "Failed to process ..." lines, each for a
    URL it has requested in this call, at most one for each request. *)
Theorem get_files_effects (self : loader) (year : Z) (w : world) :
  exists urls lines,
    requests (snd (files self year w)) = requests w ++ urls
    /\ stdout (snd (files self year w)) = stdout w ++ lines
    /\ Forall (fun url => selected year url = true) urls
    /\ Forall (fun line => exists url e, In url urls /\ line = failed_line url e)
              lines
    /\ List.length lines <= List.length urls.
Proof.
  unfold get_files, bind, lift.
  destruct (iter_values (resources self)) as [values|e].
  - apply loop_effects.
  - quiet.
Qed.

Lemma getitem_raises (v : json) (key : string) (e : exn) :
  getitem v key = Raised e -> e = KeyError key \/ exists msg, e = TypeError msg.
Proof.
  destruct v; simpl; try (intros H; injection H as <-; right; eauto).
  destruct (assoc key fields); [discriminate|].
  intros H. injection H as <-. now left.
Qed.

Lemma loop_raises year values : forall dfs w e w',
  loop year values dfs w = (Raised e, w') ->
  e = KeyError "url"
  \/ (exists msg, e = TypeError msg)
  \/ (exists ty, e = AttributeError ty "lower").
Proof.
  induction values as [|value rest IH]; intros dfs w e w'.
  - discriminate.
  - rewrite loop_cons.
    destruct (getitem value "url") as [u|e0] eqn:G.
    2: { intros H. injection H as <- _.
         apply getitem_raises in G as [->|[msg ->]]; eauto. }
    destruct u; try (intros H; injection H as <- _; eauto).
    destruct (selected year s); [|apply IH].
    rewrite attempt_cases.
    destruct (fst (fetch value s year dfs w)); apply IH.
Qed.

(** X2. An exception that leaves [get_files] is a [KeyError] for "url",
    a [TypeError] or an [AttributeError] for "lower", all from the loop
    header and line 61: nothing raised by a request, by the lookup of
    "format" or by a parser ever leaves it. *)
Theorem get_files_raises_only (self : loader) (year : Z) (w w' : world)
    (e : exn) :
  files self year w = (Raised e, w') ->
  e = KeyError "url"
  \/ (exists msg, e = TypeError msg)
  \/ (exists ty, e = AttributeError ty "lower").
Proof.
  unfold get_files, bind, lift.
  destruct (iter_values (resources self)) as [values|e0] eqn:I.
  - apply loop_raises.
  - intros H. injection H as <- _. right. left.
    destruct (resources self); simpl in I; try discriminate;
      injection I as <-; eauto.
Qed.

(** X3. A catalog cut in two is loaded as its first part, then its
    second part, the second from the world the first has left; the
    frames are those of the first part followed by those of the
    second. *)
Theorem get_files_splits (url : string) (year : Z) (pre post : list json)
    (w : world) :
  files (mkLoader url (JArr (pre ++ post))) year w
  = (first <- files (mkLoader url (JArr pre)) year ;;
     later <- files (mkLoader url (JArr post)) year ;;
     ret (first ++ later)) w.
Proof.
  unfold get_files, bind at 1 2 4, lift. simpl.
  rewrite loop_app. unfold bind.
  destruct (loop year pre [] w) as [[first|e] w1]; [|reflexivity].
  rewrite loop_acc. unfold run_map, ret.
  destruct (loop year post [] w1) as [[later|e] w2]; reflexivity.
Qed.

(** X4. On a catalog of resources with a str URL none of which passes
    the test of line 63, [create_df] sends no request, prints only its
    "No valid data files found ..." line and returns the empty frame. *)
Theorem create_df_without_match (self : loader) (year : Z)
    (values : list json) (urls : list string) (w : world) :
  resources self = JArr values ->
  Forall2 has_url values urls ->
  Forall (fun url => selected year url = false) urls ->
  build self year w
  = (Returned empty_frame,
     mkWorld (requests w) (stdout w ++ [no_data_line year])).
Proof.
  intros Hres Hu Hno. unfold create_df, get_files, bind, lift.
  rewrite Hres. simpl. now rewrite (loop_without_match year Hu Hno).
Qed.

(** ** The declared format *)

(** X5. A selected resource whose "format", in lower case, is none of
    "zip", "xlsx" and "csv" is downloaded and then dropped without a
    word: the request is sent, no frame is added, nothing is printed. *)
Theorem unknown_format_is_ignored (year : Z) (value : json)
    (url fmt : string) (content : bytes) (rest : list json)
    (dfs : list (origin * DataFrame)) (w : world) :
  has_url value url ->
  selected year url = true ->
  net (requests w) url = inr content ->
  getitem value "format" = Returned (JStr fmt) ->
  PyStr.lower fmt <> "zip" ->
  PyStr.lower fmt <> "xlsx" ->
  PyStr.lower fmt <> "csv" ->
  loop year (value :: rest) dfs w
  = loop year rest dfs (mkWorld (requests w ++ [url]) (stdout w)).
Proof.
  intros Hu Hsel Hnet Hfmt Hz Hx Hc.
  rewrite loop_cons, Hu, Hsel, attempt_cases.
  unfold fetch_and_parse, bind, get_response, lift, ret.
  rewrite Hnet. simpl. rewrite Hfmt. simpl.
  apply String.eqb_neq in Hz, Hx, Hc. now rewrite Hz, Hx, Hc.
Qed.

(** X6. A selected resource without a usable "format" (the key is
    missing, or its value is not a str) is downloaded first: the request
    is sent, then the failure of line 69 is printed and the loop goes on
    without a frame from it. *)
Theorem bad_format_is_logged (year : Z) (value : json) (url : string)
    (content : bytes) (e : exn) (rest : list json)
    (dfs : list (origin * DataFrame)) (w : world) :
  has_url value url ->
  selected year url = true ->
  net (requests w) url = inr content ->
  (format <-? getitem value "format" ;; py_lower format) = Raised e ->
  loop year (value :: rest) dfs w
  = loop year rest dfs
      (mkWorld (requests w ++ [url]) (stdout w ++ [failed_line url e])).
Proof.
  intros Hu Hsel Hnet Hbad.
  rewrite loop_cons, Hu, Hsel, attempt_cases.
  unfold fetch_and_parse, bind, get_response, lift, ret.
  rewrite Hnet. simpl.
  destruct (getitem value "format") as [format|e0]; simpl in *.
  - now rewrite Hbad.
  - now injection Hbad as <-.
Qed.

(** X7. For a selected resource declared as "zip" whose payload opens
    and whose eligible entries can all be read, the loop adds one frame
    for each eligible entry name, in the order of the archive, and
    prints nothing. *)
Theorem archive_resource_frames (year : Z) (value : json) (url fmt : string)
    (content : bytes) (z : archive) (found : list (string * DataFrame))
    (rest : list json) (dfs : list (origin * DataFrame)) (w : world) :
  has_url value url ->
  selected year url = true ->
  net (requests w) url = inr content ->
  getitem value "format" = Returned (JStr fmt) ->
  PyStr.lower fmt = "zip" ->
  unzip content = inr z ->
  extract content year = Returned found ->
  map fst found = filter (eligible (PyStr.str_of_int year)) (namelist z)
  /\ loop year (value :: rest) dfs w
     = loop year rest
         (dfs ++ map (fun e => (FromEntry url (fst e), snd e)) found)
         (mkWorld (requests w ++ [url]) (stdout w)).
Proof.
  intros Hu Hsel Hnet Hfmt Hzip Hz Hfound. split.
  - unfold extract_valid_dataframes_from_zip in Hfound. rewrite Hz in Hfound.
    simpl in Hfound. rewrite extract_loop_traverse in Hfound.
    destruct (traverse _ _) as [l|e] eqn:T; simpl in Hfound; [|discriminate].
    injection Hfound as <-. now apply traverse_names in T.
  - rewrite loop_cons, Hu, Hsel, attempt_cases.
    unfold fetch_and_parse, bind, get_response, lift, ret.
    rewrite Hnet. simpl. rewrite Hfmt. simpl. rewrite Hzip. simpl.
    now rewrite Hfound.
Qed.

(** ** Catalogs of the wrong shape *)

(** X8. When "resources" is not a list, [get_files] raises a
    [TypeError] before any request, unless the value is an empty dict or
    an empty str, over which the loop does not turn at all. *)
Theorem resources_not_a_list (self : loader) (year : Z) (w : world) :
  (forall items, resources self <> JArr items) ->
  (resources self = JObj [] \/ resources self = JStr ""
   -> files self year w = (Returned [], w))
  /\ (resources self <> JObj [] -> resources self <> JStr ""
      -> exists msg, files self year w = (Raised (TypeError msg), w)).
Proof.
  intros Hlist. unfold get_files, bind, lift. split.
  - intros [H|H]; rewrite H; reflexivity.
  - intros Hd Hs.
    destruct (resources self) as [| | | |s|items|fields];
      try (simpl; eauto; fail).
    + destruct s; [congruence|]. simpl iter_values. cbv iota.
      rewrite loop_cons. simpl. eauto.
    + now destruct (Hlist items).
    + destruct fields as [|[k v] fields]; [congruence|].
      simpl iter_values. cbv iota. rewrite loop_cons. simpl. eauto.
Qed.

(** X9. A resource whose "url" is there but is not a str stops
    [get_files] and [create_df] with an uncaught [AttributeError] for
    "lower" when the loop reaches it, as a missing "url" does with a
    [KeyError]. *)
Theorem ill_typed_url_aborts (self : loader) (year : Z)
    (pre post : list json) (value v : json)
    (before : list (origin * DataFrame)) (w w1 : world) :
  resources self = JArr (pre ++ value :: post) ->
  loop year pre [] w = (Returned before, w1) ->
  getitem value "url" = Returned v ->
  (forall s, v <> JStr s) ->
  files self year w = (Raised (AttributeError (type_name v) "lower"), w1)
  /\ build self year w = (Raised (AttributeError (type_name v) "lower"), w1).
Proof.
  intros Hres Hpre Hv Hns.
  assert (E : files self year w
              = (Raised (AttributeError (type_name v) "lower"), w1)).
  { unfold get_files, bind at 1, lift. rewrite Hres. simpl iter_values. cbv iota.
    rewrite loop_app. unfold bind. rewrite Hpre.
    rewrite loop_cons, Hv. destruct v; try reflexivity.
    now destruct (Hns s). }
  split; [exact E|]. unfold create_df, bind. now rewrite E.
Qed.

(** X10. An item of the catalog that is not a dict stops [get_files]
    and [create_df] with an uncaught [TypeError] when the loop reaches
    it. *)
Theorem non_dict_resource_aborts (self : loader) (year : Z)
    (pre post : list json) (value : json)
    (before : list (origin * DataFrame)) (w w1 : world) :
  resources self = JArr (pre ++ value :: post) ->
  loop year pre [] w = (Returned before, w1) ->
  (forall fields, value <> JObj fields) ->
  exists msg,
    files self year w = (Raised (TypeError msg), w1)
    /\ build self year w = (Raised (TypeError msg), w1).
Proof.
  intros Hres Hpre Hnd.
  assert (E : exists msg, files self year w = (Raised (TypeError msg), w1)).
  { unfold get_files, bind at 1, lift. rewrite Hres. simpl iter_values. cbv iota.
    rewrite loop_app. unfold bind. rewrite Hpre. rewrite loop_cons.
    destruct value; simpl; eauto. now destruct (Hnd fields). }
  destruct E as [msg E]. exists msg. split; [exact E|].
  unfold create_df, bind. now rewrite E.
Qed.

(** ** The constructor and a whole session *)

Lemma get_metadata_world (url : string) (w : world) :
  snd (get_metadata net response_json url w)
  = mkWorld (requests w ++ [url]) (stdout w).
Proof.
  unfold get_metadata, bind, get_response, lift.
  destruct (net (requests w) url) as [msg|body]; simpl; [reflexivity|].
  destruct (response_json body) as [data|]; simpl; [|reflexivity].
  destruct (dict_get data "success" (JBool false)) as [s|e]; simpl;
    [|reflexivity].
  destruct (is_True s); simpl; [|reflexivity].
  destruct (getitem data "result"); reflexivity.
Qed.

Lemma build_requests (self : loader) (year : Z) (w : world) :
  requests (snd (build self year w)) = requests (snd (files self year w)).
Proof.
  unfold create_df, bind.
  destruct (files self year w) as [[data|e] w']; [|reflexivity].
  destruct data; reflexivity.
Qed.

(** X11. [BikeShareDataLoader(url)] sends exactly one request, to [url],
    and prints nothing, whether it returns or raises; the object it
    returns keeps [url] and what [get_metadata] returned. *)
Theorem init_effects (url : string) (w : world) :
  snd (init net response_json url w)
  = mkWorld (requests w ++ [url]) (stdout w)
  /\ fst (init net response_json url w)
     = omap (mkLoader url) (fst (get_metadata net response_json url w)).
Proof.
  unfold init, bind, ret.
  pose proof (get_metadata_world url w) as H.
  destruct (get_metadata net response_json url w) as [[res|e] w'];
    simpl in *; subst w'; auto.
Qed.

(** X12. A whole session, [BikeShareDataLoader(url).create_df(year)]:
    the first request goes to the catalog, and every request after it
    goes to a URL that passes the test of line 63 for [year]. *)
Theorem session_requests (url : string) (year : Z) (w : world) :
  exists urls,
    requests (snd ((self <- init net response_json url ;; build self year) w))
    = requests w ++ url :: urls
    /\ Forall (fun u => selected year u = true) urls.
Proof.
  unfold bind, init at 1, bind, ret.
  pose proof (get_metadata_world url w) as Hw.
  destruct (get_metadata net response_json url w) as [[res|e] w1];
    simpl in Hw; subst w1.
  - rewrite build_requests. unfold get_files, bind, lift. simpl resources.
    destruct (iter_values res) as [values|e].
    + destruct (loop_effects year values []
                  (mkWorld (requests w ++ [url]) (stdout w)))
        as (urls & lines & R & _ & Hu & _).
      exists urls. rewrite R. simpl. now rewrite <- app_assoc.
    + exists []. simpl. auto.
  - exists []. simpl. auto.
Qed.

(** X13. Which exception [get_metadata] raises for which defect of the
    response, in the order the code meets them: the request, the JSON
    text, the kind of the JSON value, "success" (tested before "result"
    is looked at), "result", then "resources". *)
Theorem get_metadata_errors (url : string) (w : world) :
  (forall msg, net (requests w) url = inl msg ->
     fst (get_metadata net response_json url w) = Raised (LibError msg))
  /\ (forall body, net (requests w) url = inr body ->
        response_json body = None ->
        fst (get_metadata net response_json url w) = Raised JSONDecodeError)
  /\ (forall body v, net (requests w) url = inr body ->
        response_json body = Some v ->
        (forall fields, v <> JObj fields) ->
        fst (get_metadata net response_json url w)
        = Raised (AttributeError (type_name v) "get"))
  /\ (forall body fields, net (requests w) url = inr body ->
        response_json body = Some (JObj fields) ->
        (assoc "success" fields <> Some (JBool true) ->
           fst (get_metadata net response_json url w) = Raised AssertionError)
        /\ (assoc "success" fields = Some (JBool true) ->
            assoc "result" fields = None ->
            fst (get_metadata net response_json url w)
            = Raised (KeyError "result"))
        /\ (assoc "success" fields = Some (JBool true) ->
            forall r, assoc "result" fields = Some r ->
            (forall rfields, r <> JObj rfields) ->
            exists msg,
              fst (get_metadata net response_json url w)
              = Raised (TypeError msg))
        /\ (assoc "success" fields = Some (JBool true) ->
            forall rfields, assoc "result" fields = Some (JObj rfields) ->
            assoc "resources" rfields = None ->
            fst (get_metadata net response_json url w)
            = Raised (KeyError "resources"))).
Proof.
  unfold get_metadata, bind, get_response, lift.
  split; [|split; [|split]].
  - intros msg ->. reflexivity.
  - intros body -> Hj. simpl. now rewrite Hj.
  - intros body v -> Hj Hv. simpl. rewrite Hj. simpl.
    destruct v; try reflexivity. now destruct (Hv fields).
  - intros body fields -> Hj. simpl. rewrite Hj. simpl.
    split; [|split; [|split]].
    + intros Hs. destruct (assoc "success" fields) as [s|]; simpl;
        [|reflexivity].
      destruct s as [|[]| | | | |]; simpl; try reflexivity. congruence.
    + intros Hs Hr. rewrite Hs. simpl. now rewrite Hr.
    + intros Hs r Hr Hno. rewrite Hs. simpl. rewrite Hr. simpl.
      destruct r; simpl; eauto. now destruct (Hno fields0).
    + intros Hs rfields Hr Hres. rewrite Hs. simpl. rewrite Hr. simpl.
      now rewrite Hres.
Qed.

(** ** The two readers of an archive entry *)

Lemma traverse_raised {A B} (f : A -> outcome B) (l : list A) (e : exn) :
  traverse f l = Raised e -> exists x, In x l /\ f x = Raised e.
Proof.
  induction l as [|a l IH]; simpl; [discriminate|].
  destruct (f a) as [y|e0] eqn:F; simpl.
  - destruct (traverse f l) as [ys|e1]; simpl; [discriminate|].
    intros H. injection H as ->. destruct (IH eq_refl) as [x [Hin Hx]].
    exists x. auto.
  - intros H. injection H as ->. exists a. auto.
Qed.

(** X14. [extract_valid_dataframes_from_zip] never reaches line 54 with
    [df] unassigned: the [if]/[elif] of lines 42 and 52 has no [else],
    but a name that passes line 40 takes one of the two branches, so
    the function never raises [UnboundLocalError]. *)
Theorem extract_never_unbound (content : bytes) (year : Z) (var : string) :
  extract content year <> Raised (UnboundLocalError var).
Proof.
  unfold extract_valid_dataframes_from_zip.
  destruct (unzip content) as [msg|z]; simpl; [discriminate|].
  rewrite extract_loop_traverse.
  destruct (traverse _ _) as [l|e] eqn:T; simpl; [discriminate|].
  intros H. injection H as ->.
  apply traverse_raised in T as [name [Hin Hname]].
  apply filter_In in Hin as [_ Hel].
  rewrite (read_entry_eligible z _ _ Hel) in Hname.
  unfold zopen in Hname.
  destruct (find _ _) as [entry|]; simpl in Hname; [|discriminate].
  destruct (PyStr.endswith ".csv" name).
  - unfold parse_csv, pd_read_csv in Hname.
    destruct (read_csv _ _); discriminate.
  - unfold pd_read_excel in Hname. destruct (read_excel _); discriminate.
Qed.

End LoaderFacts.

(** * The loader at work on the small portal *)

Example lower_example :
  PyStr.lower "HTTP://X/ReadMe-2020.CSV" = "http://x/readme-2020.csv".
Proof. reflexivity. Qed.

Example contains_example :
  PyStr.contains "2020" "bikeshare-2020-q1.csv" = true
  /\ PyStr.contains "2021" "bikeshare-2020-q1.csv" = false
  /\ PyStr.contains "" "" = true.
Proof. repeat split. Qed.

Example endswith_example :
  PyStr.endswith ".csv" "a.csv" = true
  /\ PyStr.endswith ".csv" "csv" = false
  /\ PyStr.endswith ".csv" "a.csv.bak" = false
  /\ PyStr.endswith ".CSV" "a.csv" = false
  /\ PyStr.endswith_any [".zip"; ".xlsx"; ".csv"] "x/2020.xlsx" = true.
Proof. repeat split. Qed.

Example str_of_int_example :
  PyStr.str_of_int 2020 = "2020" /\ PyStr.str_of_int 0 = "0"
  /\ PyStr.str_of_int (-7) = "-7".
Proof. repeat split. Qed.

Example portal_2020 :
  Portal.files Portal.self 2020 Portal.start
  = (Returned Portal.data2020, Portal.world2020)
  /\ Portal.build Portal.self 2020 Portal.start
     = (Returned Portal.frame2020, Portal.world2020).
Proof. split; vm_compute; reflexivity. Qed.

Example portal_init :
  init Portal.net Portal.response_json "http://x/catalog" Portal.start
  = (Returned Portal.self, mkWorld ["http://x/catalog"] []).
Proof. vm_compute. reflexivity. Qed.

Lemma get_files_fetches_wanted_witness :
  exists data w',
    Portal.files Portal.self 2020 Portal.start = (Returned data, w')
    /\ requests w'
       = requests Portal.start
         ++ filter (selected 2020)
              ["http://x/trips-2020.csv"; "http://x/README-2020.csv";
               "http://x/down-2020.xlsx"; "http://x/trips-2020.zip";
               "http://x/trips-2019.csv"; "http://x/mixed-2020.zip";
               "http://x/notes-2020.csv"; "http://x/garbled-2020.csv"]
    /\ (forall url, selected 2020 url = true <-> wanted 2020 url)
    /\ (forall url,
          In url (filter (selected 2020)
              ["http://x/trips-2020.csv"; "http://x/README-2020.csv";
               "http://x/down-2020.xlsx"; "http://x/trips-2020.zip";
               "http://x/trips-2019.csv"; "http://x/mixed-2020.zip";
               "http://x/notes-2020.csv"; "http://x/garbled-2020.csv"])
          <-> In url
              ["http://x/trips-2020.csv"; "http://x/README-2020.csv";
               "http://x/down-2020.xlsx"; "http://x/trips-2020.zip";
               "http://x/trips-2019.csv"; "http://x/mixed-2020.zip";
               "http://x/notes-2020.csv"; "http://x/garbled-2020.csv"]
              /\ wanted 2020 url).
Proof.
  apply (@get_files_fetches_wanted Portal.net Portal.unzip Portal.detect
           Portal.read_csv Portal.read_excel Portal.self 2020
           [Portal.trips_csv; Portal.readme_csv; Portal.down_xlsx;
            Portal.trips_zip; Portal.old_csv; Portal.mixed_zip;
            Portal.notes_csv; Portal.garbled_csv]).
  - reflexivity.
  - repeat constructor.
Defined.

Lemma failure_is_isolated_witness :
  Portal.files Portal.self 2020 Portal.start
  = run_map (app [(FromUrl "http://x/trips-2020.csv", Portal.trips)])
      (Portal.loop 2020
         [Portal.trips_zip; Portal.old_csv; Portal.mixed_zip;
          Portal.notes_csv; Portal.garbled_csv]
         []
         (mkWorld
            (["http://x/trips-2020.csv"] ++ ["http://x/down-2020.xlsx"])
            ([] ++ [failed_line "http://x/down-2020.xlsx" Portal.timed_out]))).
Proof.
  apply (@failure_is_isolated Portal.net Portal.unzip Portal.detect
           Portal.read_csv Portal.read_excel Portal.self 2020
           [Portal.trips_csv; Portal.readme_csv]
           [Portal.trips_zip; Portal.old_csv; Portal.mixed_zip;
            Portal.notes_csv; Portal.garbled_csv]
           Portal.down_xlsx "http://x/down-2020.xlsx"
           [(FromUrl "http://x/trips-2020.csv", Portal.trips)]
           Portal.start (mkWorld ["http://x/trips-2020.csv"] [])
           Portal.timed_out).
  - reflexivity.
  - vm_compute. reflexivity.
  - reflexivity.
  - vm_compute. reflexivity.
  - vm_compute. reflexivity.
Defined.

Lemma missing_url_aborts_witness :
  Portal.files Portal.holed 2020 Portal.start
  = (Raised (KeyError "url"), mkWorld ["http://x/trips-2020.csv"] [])
  /\ Portal.build Portal.holed 2020 Portal.start
     = (Raised (KeyError "url"), mkWorld ["http://x/trips-2020.csv"] []).
Proof.
  apply (@missing_url_aborts Portal.net Portal.unzip Portal.detect
           Portal.read_csv Portal.read_excel Portal.promote Portal.holed 2020
           [Portal.trips_csv] [Portal.trips_zip] [("format", JStr "csv")]
           [(FromUrl "http://x/trips-2020.csv", Portal.trips)]
           Portal.start (mkWorld ["http://x/trips-2020.csv"] [])).
  - reflexivity.
  - vm_compute. reflexivity.
  - reflexivity.
Defined.

Lemma create_df_without_data_witness :
  Portal.build Portal.self 1999 Portal.start
  = (Returned empty_frame,
     mkWorld (requests Portal.start)
             (stdout Portal.start ++ [no_data_line 1999]))
  /\ nrows empty_frame = 0 /\ ncols empty_frame = 0.
Proof.
  apply (@create_df_without_data Portal.net Portal.unzip Portal.detect
           Portal.read_csv Portal.read_excel Portal.promote Portal.self 1999
           Portal.start Portal.start).
  vm_compute. reflexivity.
Defined.

Lemma create_df_concatenates_witness :
  exists df,
    Portal.build Portal.self 2020 Portal.start = (Returned df, Portal.world2020)
    /\ nrows df
       = list_sum (map nrows
                     (map snd [(FromUrl "http://x/trips-2020.csv", Portal.trips)]))
         + list_sum (map nrows (map snd (tl Portal.data2020)))
    /\ index df = map Z.of_nat (seq 0 (nrows df))
    /\ (forall i f j r,
          nth_error
            (map snd ([(FromUrl "http://x/trips-2020.csv", Portal.trips)]
                      ++ tl Portal.data2020)) i = Some f ->
          nth_error (rows f) j = Some r ->
          nth_error (rows df)
            (offset (map snd ([(FromUrl "http://x/trips-2020.csv", Portal.trips)]
                              ++ tl Portal.data2020)) i + j)
          = Some (Z.of_nat
                    (offset
                       (map snd ([(FromUrl "http://x/trips-2020.csv",
                                   Portal.trips)]
                                 ++ tl Portal.data2020)) i + j),
                  map (fun c =>
                         Portal.promote
                           (map snd ([(FromUrl "http://x/trips-2020.csv",
                                       Portal.trips)]
                                     ++ tl Portal.data2020)) c
                           (get_cell (columns f) (snd r) c))
                      (columns df)))
    /\ (forall f c,
          In f (map snd ([(FromUrl "http://x/trips-2020.csv", Portal.trips)]
                         ++ tl Portal.data2020)) ->
          In c (columns f) -> In c (columns df)).
Proof.
  apply (@create_df_concatenates Portal.net Portal.unzip Portal.detect
           Portal.read_csv Portal.read_excel Portal.promote Portal.self 2020
           [Portal.trips_csv; Portal.readme_csv; Portal.down_xlsx]
           [Portal.trips_zip; Portal.old_csv; Portal.mixed_zip;
            Portal.notes_csv; Portal.garbled_csv]
           [(FromUrl "http://x/trips-2020.csv", Portal.trips)]
           (tl Portal.data2020)
           Portal.start
           (mkWorld ["http://x/trips-2020.csv"; "http://x/down-2020.xlsx"]
                    [failed_line "http://x/down-2020.xlsx" Portal.timed_out])
           Portal.world2020).
  - reflexivity.
  - vm_compute. reflexivity.
  - vm_compute. reflexivity.
  - discriminate.
Defined.


Lemma entry_failure_drops_archive_witness :
  exists e,
    Portal.extract (Portal.b 5) 2020 = Raised e
    /\ Portal.loop 2020 [Portal.mixed_zip; Portal.trips_csv] [] Portal.start
       = Portal.loop 2020 [Portal.trips_csv] []
           (mkWorld (requests Portal.start ++ ["http://x/mixed-2020.zip"])
                    (stdout Portal.start
                     ++ [failed_line "http://x/mixed-2020.zip" e])).
Proof.
  apply (@entry_failure_drops_archive Portal.net Portal.unzip Portal.detect
           Portal.read_csv Portal.read_excel 2020 Portal.mixed_zip
           "http://x/mixed-2020.zip" "ZIP" (Portal.b 5) Portal.mixed_archive
           "q2-2020.csv" Portal.tokenizing [Portal.trips_csv] [] Portal.start).
  - reflexivity.
  - vm_compute. reflexivity.
  - reflexivity.
  - reflexivity.
  - reflexivity.
  - reflexivity.
  - simpl. auto.
  - vm_compute. reflexivity.
  - vm_compute. reflexivity.
Defined.

Lemma collected_frames_origin_witness :
  Forall (fun d => origin_ok 2020 (fst d)) Portal.data2020
  /\ (Portal.data2020 <> [] ->
      Portal.build Portal.self 2020 Portal.start
      = (pd_concat Portal.promote (map snd Portal.data2020), Portal.world2020)).
Proof.
  apply (@collected_frames_origin Portal.net Portal.unzip Portal.detect
           Portal.read_csv Portal.read_excel Portal.promote Portal.self 2020
           Portal.start Portal.world2020 Portal.data2020).
  vm_compute. reflexivity.
Defined.

Lemma csv_codec_witness :
  choose_encoding (Encoding "Ascii") = Some "cp1252"
  /\ codec_of (choose_encoding (Encoding "Ascii")) = "cp1252"
  /\ choose_encoding (Encoding "ISO-8859-1") = Some "ISO-8859-1"
  /\ codec_of (choose_encoding (Encoding "ISO-8859-1")) = "ISO-8859-1".
Proof.
  destruct (@csv_codec Portal.detect Portal.read_csv "Ascii") as [H _].
  destruct (@csv_codec Portal.detect Portal.read_csv "ISO-8859-1")
    as [_ [H' _]].
  destruct (H eq_refl) as [H1 H2].
  destruct H' as [H3 H4]; [discriminate|].
  repeat split; assumption.
Defined.

Lemma get_metadata_returns_iff_witness :
  fst (Portal.metadata "http://x/catalog" Portal.start)
  = Returned Portal.catalog.
Proof.
  apply (@get_metadata_returns_iff Portal.net Portal.response_json
           "http://x/catalog" Portal.start Portal.catalog).
  exists (Portal.b 7), Portal.good_body, [("resources", Portal.catalog)].
  repeat split.
Defined.

(** The entry "readme-2020.csv" of the archive at
    "http://x/trips-2020.zip" gives a frame to the build for 2020: its
    name holds the year, and entry names are not tested for "readme". *)
Lemma frame_from_readme_entry :
  fst (Portal.files Portal.self 2020 Portal.start) = Returned Portal.data2020
  /\ ~ Forall (fun d => origin_as_specified 2020 (fst d)) Portal.data2020.
Proof.
  split; [vm_compute; reflexivity|].
  intros H. apply Forall_forall
    with (x := (FromEntry "http://x/trips-2020.zip" "readme-2020.csv",
                Portal.trips)) in H.
  - destruct H as [_ H]. apply H.
    apply (contains_spec "readme" "readme-2020.csv"). reflexivity.
  - simpl. auto.
Qed.

(** In the archive at "http://x/mixed-2020.zip" the entry "q1-2020.csv"
    is eligible and can be read, the entry "q2-2020.csv" cannot: the
    build gets no frame from the archive, not even that of
    "q1-2020.csv". *)
Lemma readable_entry_lost_with_archive :
  exists data w',
    Portal.files Portal.only_mixed 2020 Portal.start = (Returned data, w')
    /\ ~ (forall name df,
            In name (namelist Portal.mixed_archive) ->
            eligible (PyStr.str_of_int 2020) name = true ->
            Portal.entry Portal.mixed_archive name = Returned df ->
            In (FromEntry "http://x/mixed-2020.zip" name, df) data).
Proof.
  exists [], (mkWorld ["http://x/mixed-2020.zip"]
                      [failed_line "http://x/mixed-2020.zip" Portal.tokenizing]).
  split; [vm_compute; reflexivity|].
  intros H. apply (H "q1-2020.csv" Portal.trips).
  - simpl. auto.
  - reflexivity.
  - vm_compute. reflexivity.
Qed.

(** A catalog body that is JSON, with "success" present and not false
    (it is the number 1) and with "result" and "resources" present:
    [get_metadata] fails the assertion. *)
Lemma get_metadata_rejects_success_1 :
  Portal.response_json (Portal.b 8) = Some (JObj Portal.odd_body)
  /\ Portal.net (requests Portal.start) "http://x/odd-catalog"
     = inr (Portal.b 8)
  /\ fst (Portal.metadata "http://x/odd-catalog" Portal.start)
     = Raised AssertionError
  /\ ~ metadata_error_as_specified (Portal.response_json (Portal.b 8)).
Proof.
  repeat split.
  intros [H | [fields [H1 H2]]]; [discriminate|].
  injection H1 as <-.
  destruct H2 as [H|[H|[H|[rf [H3 H4]]]]]; try discriminate.
  injection H3 as <-. discriminate.
Qed.

(** * More facts about the tests on names *)

Lemma lower_char_idempotent (c : ascii) :
  PyStr.lower_char (PyStr.lower_char c) = PyStr.lower_char c.
Proof. destruct c as [[] [] [] [] [] [] [] []]; reflexivity. Qed.

Lemma lower_idempotent (s : string) :
  PyStr.lower (PyStr.lower s) = PyStr.lower s.
Proof.
  induction s as [|c s IH]; simpl; [reflexivity|].
  now rewrite lower_char_idempotent, IH.
Qed.

Lemma year_char_lower (c : ascii) :
  year_char c = true -> PyStr.lower_char c = c.
Proof. destruct c as [[] [] [] [] [] [] [] []]; vm_compute; congruence. Qed.

Lemma year_string_lower (y : string) :
  all_chars year_char y = true -> PyStr.lower y = y.
Proof.
  induction y as [|c y IH]; simpl; [reflexivity|].
  intros H. apply andb_true_iff in H as [Hc Hy].
  now rewrite (year_char_lower _ Hc), IH.
Qed.

(** X15. Lowering the URL changes nothing for the year: [str(year)] is
    in the lowered URL exactly when it is in the URL as given. *)
Theorem year_test_ignores_case (year : Z) (url : string) :
  PyStr.contains (PyStr.str_of_int year) (PyStr.lower url)
  = PyStr.contains (PyStr.str_of_int year) url.
Proof.
  pose proof (str_of_int_chars year) as Hy.
  destruct (PyStr.contains (PyStr.str_of_int year) url) eqn:E.
  - apply contains_spec. rewrite <- (year_string_lower _ Hy).
    apply substring_lower. now apply contains_spec.
  - destruct (PyStr.contains _ (PyStr.lower url)) eqn:E'; [|reflexivity].
    apply (contains_lower _ _ Hy) in E'. congruence.
Qed.

(** X16. Whether a resource is selected depends on its URL only up to
    letter case: the URL and the URL in lower case are selected
    together. *)
Theorem selection_ignores_case (year : Z) (url : string) :
  selected year (PyStr.lower url) = selected year url.
Proof. unfold selected. now rewrite lower_idempotent. Qed.

Lemma append_assoc (a b c : string) :
  ((a ++ b) ++ c = a ++ (b ++ c))%string.
Proof. induction a; simpl; congruence. Qed.

Lemma substring_trans (a b c : string) :
  is_substring a b -> is_substring b c -> is_substring a c.
Proof.
  intros [p [q ->]] [p' [q' ->]]. exists (p' ++ p)%string, (q ++ q')%string.
  now rewrite !append_assoc.
Qed.

(** X17. The year is matched as a piece of text, not as a number: when
    [str(y1)] occurs in [str(y2)], every URL selected for [y2] is
    selected for [y1] as well (what is selected for 2020 is selected for
    20 and for 202). *)
Theorem shorter_year_selects_more (y1 y2 : Z) (url : string) :
  is_substring (PyStr.str_of_int y1) (PyStr.str_of_int y2) ->
  selected y2 url = true ->
  selected y1 url = true.
Proof.
  intros Hsub H. apply selected_spec in H as [Hy Hrest].
  apply selected_spec. split; [|exact Hrest].
  eapply substring_trans; eauto.
Qed.

(** X18. [pd.read_csv] is never asked to decode as ASCII, whatever the
    detector says and in whatever letter case it says it. *)
Theorem csv_never_read_as_ascii (detected : detection) :
  PyStr.lower (codec_of (choose_encoding detected)) <> "ascii".
Proof.
  destruct detected as [| |name]; try discriminate.
  unfold choose_encoding.
  destruct (String.eqb name "") eqn:E; simpl.
  - apply String.eqb_eq in E. subst name. discriminate.
  - destruct (String.eqb_spec (PyStr.lower name) "ascii"); simpl;
      [discriminate | assumption].
Qed.

(** * More runs on the small portal *)

Lemma get_files_raises_only_witness :
  KeyError "url" = KeyError "url"
  \/ (exists msg, KeyError "url" = TypeError msg)
  \/ (exists ty, KeyError "url" = AttributeError ty "lower").
Proof.
  apply (@get_files_raises_only Portal.net Portal.unzip Portal.detect
           Portal.read_csv Portal.read_excel Portal.holed 2020 Portal.start
           (mkWorld ["http://x/trips-2020.csv"] []) (KeyError "url")).
  vm_compute. reflexivity.
Defined.

Lemma create_df_without_match_witness :
  Portal.build Portal.self 1999 Portal.start
  = (Returned empty_frame,
     mkWorld (requests Portal.start)
             (stdout Portal.start ++ [no_data_line 1999])).
Proof.
  apply (@create_df_without_match Portal.net Portal.unzip Portal.detect
           Portal.read_csv Portal.read_excel Portal.promote Portal.self 1999
           [Portal.trips_csv; Portal.readme_csv; Portal.down_xlsx;
            Portal.trips_zip; Portal.old_csv; Portal.mixed_zip;
            Portal.notes_csv; Portal.garbled_csv]
           ["http://x/trips-2020.csv"; "http://x/README-2020.csv";
            "http://x/down-2020.xlsx"; "http://x/trips-2020.zip";
            "http://x/trips-2019.csv"; "http://x/mixed-2020.zip";
            "http://x/notes-2020.csv"; "http://x/garbled-2020.csv"]).
  - reflexivity.
  - repeat constructor.
  - repeat constructor.
Defined.

Lemma unknown_format_is_ignored_witness :
  Portal.loop 2020 [Cases.geojson; Portal.trips_zip] [] Portal.start
  = Portal.loop 2020 [Portal.trips_zip] []
      (mkWorld (requests Portal.start ++ ["http://x/trips-2020.csv"])
               (stdout Portal.start)).
Proof.
  apply (@unknown_format_is_ignored Portal.net Portal.unzip Portal.detect
           Portal.read_csv Portal.read_excel 2020 Cases.geojson
           "http://x/trips-2020.csv" "GeoJSON" (Portal.b 1)
           [Portal.trips_zip] [] Portal.start).
  - reflexivity.
  - vm_compute. reflexivity.
  - reflexivity.
  - reflexivity.
  - discriminate.
  - discriminate.
  - discriminate.
Defined.

Lemma bad_format_is_logged_witness :
  Portal.loop 2020 [Cases.null_format; Portal.trips_zip] [] Portal.start
  = Portal.loop 2020 [Portal.trips_zip] []
      (mkWorld (requests Portal.start ++ ["http://x/trips-2020.csv"])
               (stdout Portal.start
                ++ [failed_line "http://x/trips-2020.csv"
                      (AttributeError "NoneType" "lower")])).
Proof.
  apply (@bad_format_is_logged Portal.net Portal.unzip Portal.detect
           Portal.read_csv Portal.read_excel 2020 Cases.null_format
           "http://x/trips-2020.csv" (Portal.b 1)
           (AttributeError "NoneType" "lower")
           [Portal.trips_zip] [] Portal.start).
  - reflexivity.
  - vm_compute. reflexivity.
  - reflexivity.
  - reflexivity.
Defined.

Lemma archive_resource_frames_witness :
  map fst [("readme-2020.csv", Portal.trips);
           ("stations-2020.xlsx", Portal.stations)]
  = filter (eligible (PyStr.str_of_int 2020)) (namelist Portal.trips_archive)
  /\ Portal.loop 2020 [Portal.trips_zip; Portal.old_csv] [] Portal.start
     = Portal.loop 2020 [Portal.old_csv]
         ([] ++ map (fun e => (FromEntry "http://x/trips-2020.zip" (fst e),
                               snd e))
                    [("readme-2020.csv", Portal.trips);
                     ("stations-2020.xlsx", Portal.stations)])
         (mkWorld (requests Portal.start ++ ["http://x/trips-2020.zip"])
                  (stdout Portal.start)).
Proof.
  apply (@archive_resource_frames Portal.net Portal.unzip Portal.detect
           Portal.read_csv Portal.read_excel 2020 Portal.trips_zip
           "http://x/trips-2020.zip" "ZIP" (Portal.b 2) Portal.trips_archive
           [("readme-2020.csv", Portal.trips);
            ("stations-2020.xlsx", Portal.stations)]
           [Portal.old_csv] [] Portal.start).
  - reflexivity.
  - vm_compute. reflexivity.
  - reflexivity.
  - reflexivity.
  - reflexivity.
  - reflexivity.
  - vm_compute. reflexivity.
Defined.

Lemma resources_not_a_list_witness :
  exists msg,
    Portal.files Cases.keyed 2020 Portal.start
    = (Raised (TypeError msg), Portal.start).
Proof.
  apply (@resources_not_a_list Portal.net Portal.unzip Portal.detect
           Portal.read_csv Portal.read_excel Cases.keyed 2020 Portal.start);
    discriminate.
Defined.

Lemma ill_typed_url_aborts_witness :
  Portal.files Cases.with_null_url 2020 Portal.start
  = (Raised (AttributeError (type_name JNull) "lower"),
     mkWorld ["http://x/trips-2020.csv"] [])
  /\ Portal.build Cases.with_null_url 2020 Portal.start
     = (Raised (AttributeError (type_name JNull) "lower"),
        mkWorld ["http://x/trips-2020.csv"] []).
Proof.
  apply (@ill_typed_url_aborts Portal.net Portal.unzip Portal.detect
           Portal.read_csv Portal.read_excel Portal.promote Cases.with_null_url 2020
           [Portal.trips_csv] [Portal.trips_zip] Cases.null_url JNull
           [(FromUrl "http://x/trips-2020.csv", Portal.trips)]
           Portal.start (mkWorld ["http://x/trips-2020.csv"] [])).
  - reflexivity.
  - vm_compute. reflexivity.
  - reflexivity.
  - discriminate.
Defined.

Lemma non_dict_resource_aborts_witness :
  exists msg,
    Portal.files Cases.with_bare_url 2020 Portal.start
    = (Raised (TypeError msg), mkWorld ["http://x/trips-2020.csv"] [])
    /\ Portal.build Cases.with_bare_url 2020 Portal.start
       = (Raised (TypeError msg), mkWorld ["http://x/trips-2020.csv"] []).
Proof.
  apply (@non_dict_resource_aborts Portal.net Portal.unzip Portal.detect
           Portal.read_csv Portal.read_excel Portal.promote Cases.with_bare_url 2020
           [Portal.trips_csv] [] (JStr "http://x/trips-2020.zip")
           [(FromUrl "http://x/trips-2020.csv", Portal.trips)]
           Portal.start (mkWorld ["http://x/trips-2020.csv"] [])).
  - reflexivity.
  - vm_compute. reflexivity.
  - discriminate.
Defined.

Lemma get_metadata_errors_witness :
  fst (Portal.metadata "http://x/odd-catalog" Portal.start)
  = Raised AssertionError
  /\ fst (Portal.metadata "http://x/nowhere" Portal.start)
     = Raised Portal.timed_out.
Proof.
  destruct (@get_metadata_errors Portal.net Portal.response_json
              "http://x/odd-catalog" Portal.start) as (_ & _ & _ & H).
  destruct (H (Portal.b 8) Portal.odd_body eq_refl eq_refl) as [Ha _].
  destruct (@get_metadata_errors Portal.net Portal.response_json
              "http://x/nowhere" Portal.start) as (Hn & _).
  split; [apply Ha; discriminate | apply Hn; reflexivity].
Defined.

Lemma shorter_year_selects_more_witness :
  selected 20 "http://x/trips-2020.csv" = true.
Proof.
  apply (@shorter_year_selects_more 20 2020 "http://x/trips-2020.csv").
  - exists "", "20". reflexivity.
  - vm_compute. reflexivity.
Defined.

Example get_files_splits_example :
  Portal.files Portal.self 2020 Portal.start
  = (first <- Portal.files Cases.front 2020 ;;
     later <- Portal.files Cases.back 2020 ;;
     ret (first ++ later)) Portal.start.
Proof. vm_compute. reflexivity. Qed.
